(** * persona-chain: page-session diagnostics and error classification

    A shallow embedding of the diagnostic scripts of the repository:

    - [debug_credentials.py]   (module [DebugCredentials]): the console,
      request, response and page-error handlers, the network and console
      summaries and the final critical-issues analysis;
    - [debug_wallet_errors.py] (module [DebugWalletErrors]): the listeners
      and the partition of console messages into suppressed and genuine
      errors;
    - [final_personapass_test.py] (module [FinalTest]): the two regular
      expression tables, [analyze_javascript_for_real_errors] and its
      caller;
    - [apps/wallet/advanced_personapass_test.py] (module [Advanced]): the
      curl-based simulation, the script loop and the report of the Node
      simulation, [run_browser_simulation] and [run_comprehensive_test].

    [PyStr], [Re] and [Subprocess] hold what the scripts use of Python's
    strings, of its [re] module and of [subprocess.run]; [Spec] words the
    correlation rule of the specification and [Scenario] holds the
    concrete inputs of the examples.

    Python [str] values are modelled as [string] (sequences of 8-bit
    characters, i.e. ASCII texts; characters above 127 are carried along
    unchanged and are neither letters, digits nor white space).  The
    outside world (the browser driver, [subprocess.run], the clock) is a
    parameter of the operations that consult it; [print] is modelled by
    returning the printed lines. *)

From Stdlib Require Import Ascii String List Arith ZArith Lia Bool.
From Stdlib Require Import Numbers.DecimalString.
From stdpp Require Import base option list strings gmap.

Local Open Scope list_scope.

(* ===================================================================== *)
(** ** Python string operations used by the scripts                       *)
(* ===================================================================== *)

Module PyStr.

Definition dquote : ascii := "034"%char.
Definition squote : ascii := "039"%char.
Definition newline : ascii := "010"%char.
Definition backslash : ascii := "092"%char.

(** A one-character string, and a text put between double quotes. *)
Definition chr (c : ascii) : string := String c EmptyString.
Definition quoted (s : string) : string := chr dquote +:+ s +:+ chr dquote.

Definition is_upper (c : ascii) : bool :=
  let n := nat_of_ascii c in (65 <=? n) && (n <=? 90).
Definition is_lower (c : ascii) : bool :=
  let n := nat_of_ascii c in (97 <=? n) && (n <=? 122).
Definition is_digit (c : ascii) : bool :=
  let n := nat_of_ascii c in (48 <=? n) && (n <=? 57).
Definition is_alpha (c : ascii) : bool := is_upper c || is_lower c.

Definition lower_char (c : ascii) : ascii :=
  if is_upper c then ascii_of_nat (nat_of_ascii c + 32) else c.

(** [s.lower()] *)
Fixpoint lower (s : string) : string :=
  match s with
  | EmptyString => EmptyString
  | String c s' => String (lower_char c) (lower s')
  end.

Definition upper_char (c : ascii) : ascii :=
  if is_lower c then ascii_of_nat (nat_of_ascii c - 32) else c.

(** [s.upper()] *)
Fixpoint upper (s : string) : string :=
  match s with
  | EmptyString => EmptyString
  | String c s' => String (upper_char c) (upper s')
  end.

(** [s.startswith(p)] *)
Fixpoint startswith (p s : string) : bool :=
  match p, s with
  | EmptyString, _ => true
  | String a p', String b s' => Ascii.eqb a b && startswith p' s'
  | String _ _, EmptyString => false
  end.

(** [sub in s] *)
Fixpoint contains (sub s : string) : bool :=
  startswith sub s ||
  match s with
  | EmptyString => false
  | String _ s' => contains sub s'
  end.

(** [s[n:]] *)
Fixpoint drop (n : nat) (s : string) : string :=
  match n, s with
  | O, _ => s
  | S n', String _ s' => drop n' s'
  | S _, EmptyString => EmptyString
  end.

(** [s[:n]] *)
Fixpoint take (n : nat) (s : string) : string :=
  match n, s with
  | S n', String c s' => String c (take n' s')
  | _, _ => EmptyString
  end.

(** [s.endswith(suf)] *)
Definition endswith (suf s : string) : bool :=
  (String.length suf <=? String.length s) &&
  String.eqb (drop (String.length s - String.length suf) s) suf.

(** [s.rstrip('/')] *)
Fixpoint rstrip_slash (s : string) : string :=
  match s with
  | EmptyString => EmptyString
  | String c s' =>
      match rstrip_slash s' with
      | EmptyString => if Ascii.eqb c "/"%char then EmptyString else chr c
      | t => String c t
      end
  end.

(** [str(n)] for a non-negative integer *)
Definition of_nat (n : nat) : string := NilZero.string_of_uint (Nat.to_uint n).

(** [c.isspace()] *)
Definition isspace (c : ascii) : bool :=
  let n := nat_of_ascii c in
  (n =? 32) || ((9 <=? n) && (n <=? 13)) || ((28 <=? n) && (n <=? 31)).

(** [s.lstrip()], [s.rstrip()] and [s.strip()] *)
Fixpoint lstrip (s : string) : string :=
  match s with
  | EmptyString => EmptyString
  | String c s' => if isspace c then lstrip s' else s
  end.

Fixpoint rstrip (s : string) : string :=
  match s with
  | EmptyString => EmptyString
  | String c s' =>
      match rstrip s' with
      | EmptyString => if isspace c then EmptyString else chr c
      | t => String c t
      end
  end.

Definition strip (s : string) : string := rstrip (lstrip s).

(** [s.split(sep)] for a separator that is not empty: [piece] is the part
    of the current piece read so far, [skip] the number of characters of
    a separator still to pass over. *)
Fixpoint split_from (sep s : string) (skip : nat) (piece : string) : list string :=
  match s with
  | EmptyString => piece :: nil
  | String c s' =>
      match skip with
      | S n => split_from sep s' n piece
      | O =>
          if startswith sep s
          then piece :: split_from sep s' (String.length sep - 1) EmptyString
          else split_from sep s' 0 (piece +:+ chr c)
      end
  end.

Definition split (sep s : string) : list string := split_from sep s 0 EmptyString.

(** [sep.join(pieces)] *)
Fixpoint join (sep : string) (pieces : list string) : string :=
  match pieces with
  | nil => EmptyString
  | x :: nil => x
  | x :: rest => x +:+ sep +:+ join sep rest
  end.

End PyStr.

(* ===================================================================== *)
(** ** The fragment of Python's [re] module the scripts use               *)
(* ===================================================================== *)

(** Patterns are kept as the source writes them (pattern strings) and are
    compiled by [Re.compile], as [re.findall] does on each call.  The
    fragment covers every pattern of the scripts: literal characters,
    escaped punctuation, [\s \w \d] and their complements, [.], simple
    bracket classes, the greedy quantifiers [* + ?] on one character,
    [^], and one capturing group.  Anything else is reported as
    [Unsupported], except an escape of an ASCII letter that [re] does not
    know, which is the [re.error] "bad escape" of Python 3.6 and later. *)

Module Re.
Import PyStr.

Inductive cset : Type :=
| CAny                          (* .   : anything but a newline *)
| CChar (c : ascii)             (* a literal character *)
| CIn (neg : bool) (l : list ascii)  (* [abc] and [^abc] *)
| CSpace (neg : bool)           (* \s and \S *)
| CWord (neg : bool)            (* \w and \W *)
| CDigit (neg : bool).          (* \d and \D *)

Inductive quant : Type := One | Star | Plus | Opt.

Inductive item : Type :=
| Atom (cs : cset) (q : quant)
| Bol                           (* ^ *)
| GOpen                         (* ( *)
| GClose.                       (* ) *)

Definition regex := list item.

(** What a call into [re] gives: a value, or the exception it raises. *)
Inductive result (A : Type) : Type :=
| Ok (a : A)
| BadEscape (c : ascii) (pos : nat)   (* re.error: bad escape \c at position pos *)
| Unsupported (pos : nat).
Arguments Ok {A} a.
Arguments BadEscape {A} c pos.
Arguments Unsupported {A} pos.

Record flags : Type := { MULTILINE : bool; IGNORECASE : bool }.
Definition no_flags : flags := {| MULTILINE := false; IGNORECASE := false |}.

(** *** Compilation of a pattern string *)

Inductive pmode : Type :=
| MNormal
| MEscape                               (* just read a backslash *)
| MBrace                                (* just read an opening brace *)
| MClassStart                           (* just read an opening bracket *)
| MClass (neg : bool) (acc : list ascii).

Record pstate : Type :=
  { st_items : list item;   (* compiled so far, most recent first *)
    st_mode : pmode;
    st_open : bool;         (* inside the capturing group *)
    st_groups : nat }.

Definition push (i : item) (st : pstate) : pstate :=
  {| st_items := i :: st_items st; st_mode := MNormal;
     st_open := st_open st; st_groups := st_groups st |}.

Definition set_mode (m : pmode) (st : pstate) : pstate :=
  {| st_items := st_items st; st_mode := m;
     st_open := st_open st; st_groups := st_groups st |}.

Definition quantify (q : quant) (pos : nat) (st : pstate) : result pstate :=
  match st_items st with
  | Atom cs One :: rest =>
      Ok {| st_items := Atom cs q :: rest; st_mode := MNormal;
                  st_open := st_open st; st_groups := st_groups st |}
  | _ => Unsupported pos
  end.

(** The letters [re] accepts after a backslash; of these the fragment
    keeps the character categories and the control characters. *)
Definition escape (c : ascii) (pos : nat) (st : pstate) : result pstate :=
  let lit a := Ok (push (Atom (CChar a) One) st) in
  if Ascii.eqb c "s" then Ok (push (Atom (CSpace false) One) st)
  else if Ascii.eqb c "S" then Ok (push (Atom (CSpace true) One) st)
  else if Ascii.eqb c "w" then Ok (push (Atom (CWord false) One) st)
  else if Ascii.eqb c "W" then Ok (push (Atom (CWord true) One) st)
  else if Ascii.eqb c "d" then Ok (push (Atom (CDigit false) One) st)
  else if Ascii.eqb c "D" then Ok (push (Atom (CDigit true) One) st)
  else if Ascii.eqb c "n" then lit "010"%char
  else if Ascii.eqb c "t" then lit "009"%char
  else if Ascii.eqb c "r" then lit "013"%char
  else if Ascii.eqb c "f" then lit "012"%char
  else if Ascii.eqb c "v" then lit "011"%char
  else if Ascii.eqb c "a" then lit "007"%char
  else if existsb (Ascii.eqb c) (list_ascii_of_string "bABZxuUN") then Unsupported pos
  else if is_digit c then Unsupported pos
  else if is_alpha c then BadEscape c (pos - 1)
  else lit c.

Definition normal (c : ascii) (pos : nat) (st : pstate) : result pstate :=
  if Ascii.eqb c backslash then Ok (set_mode MEscape st)
  else if Ascii.eqb c "." then Ok (push (Atom CAny One) st)
  else if Ascii.eqb c "^" then Ok (push Bol st)
  else if Ascii.eqb c "*" then quantify Star pos st
  else if Ascii.eqb c "+" then quantify Plus pos st
  else if Ascii.eqb c "?" then quantify Opt pos st
  else if Ascii.eqb c "[" then Ok (set_mode MClassStart st)
  else if Ascii.eqb c "{" then Ok (set_mode MBrace st)
  else if Ascii.eqb c "(" then
    if st_open st || (0 <? st_groups st) then Unsupported pos
    else Ok {| st_items := GOpen :: st_items st; st_mode := MNormal;
                     st_open := true; st_groups := 1 |}
  else if Ascii.eqb c ")" then
    if st_open st
    then Ok {| st_items := GClose :: st_items st; st_mode := MNormal;
                     st_open := false; st_groups := st_groups st |}
    else Unsupported pos
  else if Ascii.eqb c "$" || Ascii.eqb c "|" then Unsupported pos
  else Ok (push (Atom (CChar c) One) st).

Definition step (c : ascii) (pos : nat) (st : pstate) : result pstate :=
  match st_mode st with
  | MNormal => normal c pos st
  | MEscape => escape c pos st
  | MBrace =>
      (* an opening brace is a literal unless a repetition count follows *)
      if is_digit c || Ascii.eqb c "," then Unsupported pos
      else normal c pos (push (Atom (CChar "{") One) st)
  | MClassStart =>
      if Ascii.eqb c "^" then Ok (set_mode (MClass true nil) st)
      else if Ascii.eqb c "]" || Ascii.eqb c backslash || Ascii.eqb c "-" then Unsupported pos
      else Ok (set_mode (MClass false (c :: nil)) st)
  | MClass neg acc =>
      if Ascii.eqb c "]" then
        match acc with
        | nil => Unsupported pos
        | _ => Ok (push (Atom (CIn neg (rev acc)) One) st)
        end
      else if Ascii.eqb c backslash || Ascii.eqb c "-" then Unsupported pos
      else Ok (set_mode (MClass neg (c :: acc)) st)
  end.

Fixpoint compile_from (p : string) (pos : nat) (st : pstate) : result pstate :=
  match p with
  | EmptyString => Ok st
  | String c p' =>
      match step c pos st with
      | Ok st' => compile_from p' (S pos) st'
      | BadEscape a n => BadEscape a n
      | Unsupported n => Unsupported n
      end
  end.

(** A pattern that can match the empty text is outside the fragment. *)
Definition nullable_item (i : item) : bool :=
  match i with
  | Atom _ One | Atom _ Plus => false
  | _ => true
  end.

Definition compile (p : string) : result regex :=
  let init := {| st_items := nil; st_mode := MNormal;
                 st_open := false; st_groups := 0 |} in
  match compile_from p 0 init with
  | Ok st =>
      let st' := match st_mode st with
                 | MBrace => push (Atom (CChar "{") One) st
                 | _ => st
                 end in
      match st_mode st' with
      | MNormal =>
          if st_open st' || forallb nullable_item (st_items st')
          then Unsupported (String.length p)
          else Ok (rev (st_items st'))
      | _ => Unsupported (String.length p)
      end
  | BadEscape a n => BadEscape a n
  | Unsupported n => Unsupported n
  end.

(** *** Matching *)

Definition is_space (c : ascii) : bool :=
  let n := nat_of_ascii c in
  (n =? 32) || ((9 <=? n) && (n <=? 13)) || ((28 <=? n) && (n <=? 31)).

Definition is_word (c : ascii) : bool :=
  is_alpha c || is_digit c || Ascii.eqb c "_".

Definition same_char (ic : bool) (a b : ascii) : bool :=
  if ic then Ascii.eqb (lower_char a) (lower_char b) else Ascii.eqb a b.

Definition cset_matches (ic : bool) (cs : cset) (c : ascii) : bool :=
  match cs with
  | CAny => negb (Ascii.eqb c newline)
  | CChar a => same_char ic a c
  | CIn neg l => xorb neg (existsb (fun a => same_char ic a c) l)
  | CSpace neg => xorb neg (is_space c)
  | CWord neg => xorb neg (is_word c)
  | CDigit neg => xorb neg (is_digit c)
  end.

(** The result of a match at a position: the text left after the match
    and the text captured by the group, if the pattern has one. *)
Definition mresult : Type := string * option string.

(** [match_items f r bol gopen gcap s]: match [r] at the start of [s];
    [bol] tells whether [^] matches here, [gopen] is the text at which
    the group was opened and [gcap] what it has captured.  Quantifiers
    are greedy and give back one character at a time. *)
Fixpoint match_items (f : flags) (r : regex)
  : bool -> option string -> option string -> string -> option mresult :=
  match r with
  | nil => fun _ _ gcap s => Some (s, gcap)
  | Bol :: r' => fun bol gopen gcap s =>
      if bol then match_items f r' bol gopen gcap s else None
  | GOpen :: r' => fun bol _ gcap s => match_items f r' bol (Some s) gcap s
  | GClose :: r' => fun bol gopen _ s =>
      match_items f r' bol gopen
        (option_map (fun o => take (String.length o - String.length s) o) gopen) s
  | Atom cs q :: r' =>
      let k := match_items f r' in
      let after (c : ascii) : bool := MULTILINE f && Ascii.eqb c newline in
      let one (kk : bool -> option string -> option string -> string -> option mresult)
              (bol : bool) (gopen gcap : option string) (s : string) : option mresult :=
        match s with
        | String c s' =>
            if cset_matches (IGNORECASE f) cs c then kk (after c) gopen gcap s' else None
        | EmptyString => None
        end in
      let star :=
        fix star (bol : bool) (gopen gcap : option string) (s : string) : option mresult :=
          match s with
          | String c s' =>
              if cset_matches (IGNORECASE f) cs c then
                match star (after c) gopen gcap s' with
                | Some x => Some x
                | None => k bol gopen gcap s
                end
              else k bol gopen gcap s
          | EmptyString => k bol gopen gcap s
          end in
      match q with
      | One => one k
      | Star => star
      | Plus => one star
      | Opt => fun bol gopen gcap s =>
          match one k bol gopen gcap s with
          | Some x => Some x
          | None => k bol gopen gcap s
          end
      end
  end.

(** [scan f r s skip bol]: the matches of [r] in [s], leftmost first and
    not overlapping; [skip] counts the characters of [s] that belong to
    the previous match.  As [re.findall] does, a pattern with a group
    yields the group's text and a pattern without one the whole match. *)
Fixpoint scan (f : flags) (r : regex) (s : string) (skip : nat) (bol : bool)
  : list string :=
  match s with
  | EmptyString => nil
  | String c s' =>
      let next := MULTILINE f && Ascii.eqb c newline in
      match skip with
      | S n => scan f r s' n next
      | O =>
          match match_items f r bol None None s with
          | Some (rest, gcap) =>
              let n := String.length s - String.length rest in
              let found := match gcap with
                           | Some g => g
                           | None => take n s
                           end in
              found :: scan f r s' (n - 1) next
          | None => scan f r s' 0 next
          end
      end
  end.

(** The pattern that matches the text [p] itself, character by character. *)
Definition literal (p : string) : regex :=
  map (fun c => Atom (CChar c) One) (list_ascii_of_string p).

(** [re.findall(pattern, text, flags)] *)
Definition findall (pattern text : string) (f : flags) : result (list string) :=
  match compile pattern with
  | Ok r => Ok (scan f r text 0 true)
  | BadEscape c n => BadEscape c n
  | Unsupported n => Unsupported n
  end.

(** [str(e)] of the exception a call into [re] raised. *)
Definition str_re_error (c : ascii) (pos : nat) : string :=
  "bad escape " +:+ chr backslash +:+ chr c +:+ " at position " +:+ of_nat pos.
Definition str_outside_fragment (pos : nat) : string :=
  "pattern outside the modelled fragment at position " +:+ of_nat pos.

(** A pattern of the fragment: it compiles, or [re] rejects it for a
    bad escape. *)
Definition in_fragment (pattern : string) : bool :=
  match compile pattern with
  | Ok _ | BadEscape _ _ => true
  | Unsupported _ => false
  end.

End Re.

(* ===================================================================== *)
(** ** debug_credentials.py                                              *)
(* ===================================================================== *)

Module DebugCredentials.
Import PyStr.

(** *** The driver's objects, as the handlers read them *)

Record ConsoleMessage : Type :=
  { msg_type : string; msg_text : string; msg_location : option string }.

Record Request : Type :=
  { request_method : string; request_url : string;
    request_headers : gmap string string; request_resource_type : string }.

(** [response_ok] is the driver's [response.ok]. *)
Record Response : Type :=
  { response_url : string; response_status : nat; response_status_text : string;
    response_headers : gmap string string; response_ok : bool }.

(** *** [debug_data] *)

Record console_entry : Type :=
  { ce_timestamp : string; ce_type : string; ce_text : string;
    ce_location : option string }.

(** The four keys that [req.update] sets together on a request entry. *)
Record response_fields : Type :=
  { status : nat; status_text : string;
    headers_response : gmap string string; ok : bool }.

(** An entry of [debug_data['network_requests']]: the five keys written by
    [handle_request] and, once [handle_response] has updated the entry,
    the four response keys ([rq_response = None] is ['status' not in req]). *)
Record request_data : Type :=
  { rq_timestamp : string; rq_method : string; rq_url : string;
    rq_headers : gmap string string; rq_resource_type : string;
    rq_response : option response_fields }.

Record error_data : Type :=
  { er_timestamp : string; er_message : string; er_type : string }.

(** [debug_data['page_state']]; a key that is absent is [None]
    ([error_boundary] is also [None] when the stored text is [None]). *)
Record page_state_t : Type :=
  { error_boundary : option string; specific_error_found : option bool;
    js_execution : option bool; react_loaded : option bool }.

Record debug_data_t : Type :=
  { console_logs : list console_entry;
    network_requests : list request_data;
    errors : list error_data;
    page_state : page_state_t }.

Definition empty_page_state : page_state_t :=
  {| error_boundary := None; specific_error_found := None;
     js_execution := None; react_loaded := None |}.

Definition initial_debug_data : debug_data_t :=
  {| console_logs := nil; network_requests := nil; errors := nil;
     page_state := empty_page_state |}.

(** *** Printed lines *)

Inductive line : Type :=
| ConsoleLine (type text : string)          (* CONSOLE {msg.type.upper()}: {text} *)
| LocationLine (location : string)          (* Location: {location} *)
| RequestLine (method url : string)         (* REQUEST: {method} {url} *)
| FailedRequestLine (status : nat) (url : string)   (* FAILED REQUEST: {status} {url} *)
| StatusTextLine (text : string)            (* Status Text: {status_text} *)
| MimeJsLine (content_type : string)        (* MIME TYPE ISSUE: JS file served as ... *)
| MimeCssLine (content_type : string)       (* MIME TYPE ISSUE: CSS file served as ... *)
| PageErrorLine (message : string)          (* PAGE ERROR: {error} *)
| TotalRequestsLine (n : nat)
| SuccessfulRequestsLine (n : nat)
| FailedRequestsLine (n : nat)
| FailedRequestsHeader
| FailedDetailLine (status : nat) (url : string)
| ContentTypeLine (content_type : string)
| TotalConsoleLine (n : nat)
| ErrorsLine (n : nat)
| WarningsLine (n : nat)
| ConsoleErrorsHeader
| ErrorTextLine (text : string)
| CriticalIssuesHeader
| CriticalIssueLine (issue : string)
| NoCriticalIssuesLine.

(** *** The script's effects: [debug_data] is read and updated, lines are
    printed. *)

Definition M (A : Type) : Type := debug_data_t -> A * debug_data_t * list line.

Definition ret {A} (a : A) : M A := fun d => (a, d, nil).
Definition bind {A B} (m : M A) (k : A -> M B) : M B :=
  fun d => let '(a, d1, out1) := m d in
           let '(b, d2, out2) := k a d1 in
           (b, d2, out1 ++ out2).
Definition get : M debug_data_t := fun d => (d, d, nil).
Definition put (d' : debug_data_t) : M unit := fun _ => (tt, d', nil).
Definition print (l : line) : M unit := fun d => (tt, d, l :: nil).
Definition when (b : bool) (m : M unit) : M unit := if b then m else ret tt.

Fixpoint for_each {A} (l : list A) (body : A -> M unit) : M unit :=
  match l with
  | nil => ret tt
  | x :: l' => bind (body x) (fun _ => for_each l' body)
  end.

Declare Scope py_scope.
Delimit Scope py_scope with py.
Notation "x <- m ;; k" := (bind m (fun x => k))
  (at level 100, m at next level, right associativity) : py_scope.
Notation "m ;;; k" := (bind m (fun _ => k))
  (at level 100, right associativity) : py_scope.
Local Open Scope py_scope.

Definition data_of {A} (r : A * debug_data_t * list line) : debug_data_t := snd (fst r).
Definition printed {A} (r : A * debug_data_t * list line) : list line := snd r.
Definition value_of {A} (r : A * debug_data_t * list line) : A := fst (fst r).

(** *** Handlers (lines 56-122) *)

Definition handle_console (now : string) (msg : ConsoleMessage) : M unit :=
  d <- get ;;
  put {| console_logs := console_logs d ++
           {| ce_timestamp := now; ce_type := msg_type msg;
              ce_text := msg_text msg; ce_location := msg_location msg |} :: nil;
         network_requests := network_requests d;
         errors := errors d; page_state := page_state d |} ;;;
  when (String.eqb (msg_type msg) "error" || String.eqb (msg_type msg) "warning")
    (print (ConsoleLine (upper (msg_type msg)) (msg_text msg)) ;;;
     match msg_location msg with
     | Some loc => print (LocationLine loc)
     | None => ret tt
     end).

Definition handle_request (now : string) (request : Request) : M unit :=
  d <- get ;;
  put {| console_logs := console_logs d;
         network_requests := network_requests d ++
           {| rq_timestamp := now; rq_method := request_method request;
              rq_url := request_url request; rq_headers := request_headers request;
              rq_resource_type := request_resource_type request;
              rq_response := None |} :: nil;
         errors := errors d; page_state := page_state d |} ;;;
  print (RequestLine (request_method request) (request_url request)).

(** [req.update({'status': ..., 'status_text': ..., 'headers_response': ...,
    'ok': ...})]: the entry keeps its own keys, the response keys are set
    (and overwritten when already there). *)
Definition update (req : request_data) (response : Response) : request_data :=
  {| rq_timestamp := rq_timestamp req; rq_method := rq_method req;
     rq_url := rq_url req; rq_headers := rq_headers req;
     rq_resource_type := rq_resource_type req;
     rq_response := Some {| status := response_status response;
                            status_text := response_status_text response;
                            headers_response := response_headers response;
                            ok := response_ok response |} |}.

(** The keys of an entry that [handle_request] wrote. *)
Definition request_keys (req : request_data) : request_data :=
  {| rq_timestamp := rq_timestamp req; rq_method := rq_method req;
     rq_url := rq_url req; rq_headers := rq_headers req;
     rq_resource_type := rq_resource_type req; rq_response := None |}.

(** [for req in debug_data['network_requests']:
      if req['url'] == response.url: req.update(...); break] *)
Fixpoint find_corresponding_request (response : Response) (reqs : list request_data)
  : list request_data :=
  match reqs with
  | nil => nil
  | req :: rest =>
      if String.eqb (rq_url req) (response_url response)
      then update req response :: rest
      else req :: find_corresponding_request response rest
  end.

(** [response.headers.get('content-type', '')] *)
Definition content_type_of (response : Response) : string :=
  default EmptyString (response_headers response !! "content-type").

(** The check for MIME type issues (lines 102-107), which sits inside
    [if not response.ok]. *)
Definition check_mime_type (response : Response) : M unit :=
  let content_type := content_type_of response in
  if endswith ".js" (response_url response) && negb (contains "javascript" content_type)
  then print (MimeJsLine content_type)
  else if endswith ".css" (response_url response) && negb (contains "css" content_type)
  then print (MimeCssLine content_type)
  else ret tt.

Definition handle_response (response : Response) : M unit :=
  d <- get ;;
  put {| console_logs := console_logs d;
         network_requests := find_corresponding_request response (network_requests d);
         errors := errors d; page_state := page_state d |} ;;;
  when (negb (response_ok response))
    (print (FailedRequestLine (response_status response) (response_url response)) ;;;
     print (StatusTextLine (response_status_text response)) ;;;
     check_mime_type response).

Definition handle_page_error (now : string) (error : string) : M unit :=
  d <- get ;;
  put {| console_logs := console_logs d;
         network_requests := network_requests d;
         errors := errors d ++
           {| er_timestamp := now; er_message := error; er_type := "page_error" |} :: nil;
         page_state := page_state d |} ;;;
  print (PageErrorLine error).

(** The four event channels the page delivers to the handlers, one
    event at a time; [now] is [datetime.now().isoformat()] at delivery. *)
Inductive event : Type :=
| Console (now : string) (msg : ConsoleMessage)
| RequestEvent (now : string) (request : Request)
| ResponseEvent (response : Response)
| PageError (now : string) (error : string).

Definition on_event (e : event) : M unit :=
  match e with
  | Console now msg => handle_console now msg
  | RequestEvent now request => handle_request now request
  | ResponseEvent response => handle_response response
  | PageError now error => handle_page_error now error
  end.

Definition on_events (es : list event) : M unit := for_each es on_event.

(** *** Network and console summaries, final analysis (lines 197-267) *)

(** ['status' in req] and [req.get('ok', True)] *)
Definition has_status (req : request_data) : bool :=
  match rq_response req with Some _ => true | None => false end.
Definition get_ok (req : request_data) : bool :=
  match rq_response req with Some r => ok r | None => true end.

Definition failed_requests (d : debug_data_t) : list request_data :=
  List.filter (fun req => has_status req && negb (get_ok req)) (network_requests d).
Definition successful_requests (d : debug_data_t) : list request_data :=
  List.filter (fun req => has_status req && get_ok req) (network_requests d).

Definition error_logs (d : debug_data_t) : list console_entry :=
  List.filter (fun log => String.eqb (ce_type log) "error") (console_logs d).
Definition warning_logs (d : debug_data_t) : list console_entry :=
  List.filter (fun log => String.eqb (ce_type log) "warning") (console_logs d).

Definition network_analysis_summary : M (list request_data) :=
  d <- get ;;
  let failed := failed_requests d in
  let successful := successful_requests d in
  print (TotalRequestsLine (length (network_requests d))) ;;;
  print (SuccessfulRequestsLine (length successful)) ;;;
  print (FailedRequestsLine (length failed)) ;;;
  when (negb (Nat.eqb (length failed) 0))
    (print FailedRequestsHeader ;;;
     for_each failed (fun req =>
       match rq_response req with
       | Some r =>
           print (FailedDetailLine (status r) (rq_url req)) ;;;
           print (ContentTypeLine (default "unknown" (headers_response r !! "content-type")))
       | None => ret tt
       end)) ;;;
  ret failed.

Definition console_logs_summary : M (list console_entry) :=
  d <- get ;;
  let errs := error_logs d in
  print (TotalConsoleLine (length (console_logs d))) ;;;
  print (ErrorsLine (length errs)) ;;;
  print (WarningsLine (length (warning_logs d))) ;;;
  when (negb (Nat.eqb (length errs) 0))
    (print ConsoleErrorsHeader ;;;
     for_each errs (fun e =>
       print (ErrorTextLine (ce_text e)) ;;;
       match ce_location e with
       | Some loc => print (LocationLine loc)
       | None => ret tt
       end)) ;;;
  ret errs.

Record summary_t : Type :=
  { critical_issues : list string; warnings : list string;
    recommendations : list string }.

(** The truth value of [page_state.get('error_boundary')]. *)
Definition truthy (s : option string) : bool :=
  match s with
  | Some (String _ _) => true
  | _ => false
  end.

Definition critical_issues_of (errs : list console_entry) (failed : list request_data)
    (ps : page_state_t) : list string :=
  (if 0 <? length errs
   then (of_nat (length errs) +:+ " console errors detected") :: nil else nil) ++
  (if 0 <? length failed
   then (of_nat (length failed) +:+ " failed network requests") :: nil else nil) ++
  (if negb (default true (js_execution ps))
   then "JavaScript execution failed" :: nil else nil) ++
  (if truthy (error_boundary ps)
   then "Error boundary activated" :: nil else nil).

Definition final_analysis (errs : list console_entry) (failed : list request_data)
  : M summary_t :=
  d <- get ;;
  let summary := {| critical_issues := critical_issues_of errs failed (page_state d);
                    warnings := nil; recommendations := nil |} in
  print CriticalIssuesHeader ;;;
  for_each (critical_issues summary) (fun issue => print (CriticalIssueLine issue)) ;;;
  when (match critical_issues summary with nil => true | _ => false end)
    (print NoCriticalIssuesLine) ;;;
  ret summary.

(** Steps 4, 5 and 7 of the investigation: from the recorded data to
    the returned pair [(debug_data, summary)]. *)
Definition aggregate : M (debug_data_t * summary_t) :=
  failed <- network_analysis_summary ;;
  errs <- console_logs_summary ;;
  summary <- final_analysis errs failed ;;
  d <- get ;;
  ret (d, summary).

(** The summary that [final_analysis] builds when it is given the error
    logs and the failed requests of the data. *)
Definition summary_of (d : debug_data_t) : summary_t :=
  {| critical_issues := critical_issues_of (error_logs d) (failed_requests d) (page_state d);
     warnings := nil; recommendations := nil |}.

(** [computes m f]: the computation [m] returns [f] of the data it
    is run on and leaves the data as they are (it may print). *)
Definition computes {A} (m : M A) (f : debug_data_t -> A) : Prop :=
  forall d, exists out, m d = (f d, d, out).

End DebugCredentials.

(* ===================================================================== *)
(** ** debug_wallet_errors.py                                            *)
(* ===================================================================== *)

Module DebugWalletErrors.
Import PyStr.

Record console_message : Type :=
  { cm_type : string; cm_text : string; cm_location : option string;
    cm_timestamp : string }.

Record js_error : Type := { je_message : string; je_timestamp : string }.

Record network_failure : Type :=
  { nf_url : string; nf_status : nat; nf_statusText : string; nf_timestamp : string }.

(** The three lists the listeners fill (lines 19-50). *)
Record collected : Type :=
  { console_messages : list console_message;
    js_errors : list js_error;
    network_failures : list network_failure }.

Definition handle_console (now : string) (type text : string) (location : option string)
    (c : collected) : collected :=
  {| console_messages := console_messages c ++
       {| cm_type := type; cm_text := text; cm_location := location;
          cm_timestamp := now |} :: nil;
     js_errors := js_errors c; network_failures := network_failures c |}.

Definition handle_page_error (now : string) (error : string) (c : collected) : collected :=
  {| console_messages := console_messages c;
     js_errors := js_errors c ++ {| je_message := error; je_timestamp := now |} :: nil;
     network_failures := network_failures c |}.

Definition handle_response (now : string) (url : string) (status : nat)
    (status_text : string) (ok : bool) (c : collected) : collected :=
  if negb ok then
    {| console_messages := console_messages c; js_errors := js_errors c;
       network_failures := network_failures c ++
         {| nf_url := url; nf_status := status; nf_statusText := status_text;
            nf_timestamp := now |} :: nil |}
  else c.

(** Lines 201-202: the two list comprehensions over [console_messages]. *)
Definition is_suppressed (msg : console_message) : bool :=
  contains "suppressed" (lower (cm_text msg)).
Definition is_genuine (msg : console_message) : bool :=
  String.eqb (cm_type msg) "error" && negb (contains "suppressed" (lower (cm_text msg))).

Definition suppressed_errors (msgs : list console_message) : list console_message :=
  List.filter is_suppressed msgs.
Definition genuine_errors (msgs : list console_message) : list console_message :=
  List.filter is_genuine msgs.

(** The dictionary returned by [analyze_wallet_errors] (lines 230-237);
    [error_ui_count] is the number of banner elements the page showed. *)
Record stats : Type :=
  { st_console_messages : list console_message;
    st_js_errors : list js_error;
    st_network_failures : list network_failure;
    error_ui_count : nat;
    suppressed_count : nat;
    genuine_error_count : nat }.

Definition analyze_wallet_errors (c : collected) (error_details : nat) : stats :=
  {| st_console_messages := console_messages c;
     st_js_errors := js_errors c;
     st_network_failures := network_failures c;
     error_ui_count := error_details;
     suppressed_count := length (suppressed_errors (console_messages c));
     genuine_error_count := length (genuine_errors (console_messages c)) |}.

(** *** The listeners at work (lines 52-54) *)

(** What the page delivers to the three listeners. *)
Inductive event : Type :=
| ConsoleEvent (now type text : string) (location : option string)
| PageErrorEvent (now error : string)
| ResponseEvent (now url : string) (status : nat) (status_text : string) (ok : bool).

Definition on_event (e : event) (c : collected) : collected :=
  match e with
  | ConsoleEvent now type text location => handle_console now type text location c
  | PageErrorEvent now error => handle_page_error now error c
  | ResponseEvent now url status status_text ok =>
      handle_response now url status status_text ok c
  end.

Definition on_events (es : list event) (c : collected) : collected :=
  fold_left (fun c e => on_event e c) es c.

Definition nothing_collected : collected :=
  {| console_messages := nil; js_errors := nil; network_failures := nil |}.

(** *** The banner elements (lines 74-93) *)





(** *** The console summary (lines 178-181) *)

(** The messages the summary prints. *)
Definition shown_in_summary (msg : console_message) : bool :=
  contains "error" (lower (cm_type msg)) ||
  contains "invalid" (lower (cm_text msg)) ||
  contains "token" (lower (cm_text msg)).

Definition is_error (msg : console_message) : bool := String.eqb (cm_type msg) "error".


(** What the events hold for each listener. *)
Definition failure_of (e : event) : list network_failure :=
  match e with
  | ResponseEvent now url status status_text false =>
      {| nf_url := url; nf_status := status; nf_statusText := status_text;
         nf_timestamp := now |} :: nil
  | _ => nil
  end.
Definition message_of (e : event) : list console_message :=
  match e with
  | ConsoleEvent now type text location =>
      {| cm_type := type; cm_text := text; cm_location := location;
         cm_timestamp := now |} :: nil
  | _ => nil
  end.
Definition js_error_of (e : event) : list js_error :=
  match e with
  | PageErrorEvent now error => {| je_message := error; je_timestamp := now |} :: nil
  | _ => nil
  end.

End DebugWalletErrors.

(* ===================================================================== *)
(** ** [subprocess.run], as the test scripts call it                      *)
(* ===================================================================== *)

Module Subprocess.
Import PyStr.

(** What [subprocess.run(argv, capture_output=True, text=True, ...)]
    gives: a completed process, the [TimeoutExpired] exception, or
    another exception with its [str()]. *)
Inductive run_outcome : Type :=
| Completed (returncode : Z) (stdout stderr : string)
| TimeoutExpired
| Raised (message : string).

(** The outcome of the [n]-th call of [subprocess.run], given its
    argument vector. *)
Definition world : Type := nat -> list string -> run_outcome.

(** [str(e)] of a [TimeoutExpired] for the command [argv]. *)
Fixpoint repr_items (l : list string) : string :=
  match l with
  | nil => EmptyString
  | x :: nil => "'" +:+ x +:+ "'"
  | x :: rest => "'" +:+ x +:+ "', " +:+ repr_items rest
  end.
Definition str_timeout (argv : list string) (seconds : nat) : string :=
  "Command '[" +:+ repr_items argv +:+ "]' timed out after " +:+ of_nat seconds +:+ " seconds".

(** The standard output of a completed process (empty when the call
    raised). *)
Definition stdout_of (o : run_outcome) : string :=
  match o with
  | Completed _ stdout _ => stdout
  | _ => EmptyString
  end.

End Subprocess.

(* ===================================================================== *)
(** ** final_personapass_test.py                                         *)
(* ===================================================================== *)

Module FinalTest.
Import PyStr.

(** The two pattern tables of [analyze_javascript_for_real_errors]
    (lines 20-41), each pattern spelled as in the source; [quoted] and
    [chr dquote] stand for the double quotes inside the patterns. *)
Definition error_handling_patterns : list string :=
  quoted "SyntaxError" ::
  "'SyntaxError'" ::
  ("\.includes\(" +:+ quoted "SyntaxError" +:+ "\)") ::
  ("\.includes\(" +:+ quoted "Invalid or unexpected token" +:+ "\)") ::
  ("\.includes\(" +:+ quoted "Node cannot be found" +:+ "\)") ::
  ("message\?\.\includes\(" +:+ chr dquote +:+ "Node") ::
  ("error\?\.\message\.includes\(" +:+ chr dquote +:+ "Node") ::
  "catch\s*\(\s*\w+\s*\)\s*{[^}]*SyntaxError" ::
  "if\s*\([^)]*SyntaxError[^)]*\)" ::
  ("===\s*" +:+ quoted "SyntaxError") ::
  ("!==\s*" +:+ quoted "SyntaxError") :: nil.

Definition actual_error_patterns : list string :=
  "^SyntaxError:" ::
  "Uncaught SyntaxError" ::
  "^\s*throw new SyntaxError" ::
  "console\.error.*SyntaxError" ::
  "SyntaxError.*at\s+line" :: nil.

(** [re.MULTILINE | re.IGNORECASE] *)
Definition flags : Re.flags := {| Re.MULTILINE := true; Re.IGNORECASE := true |}.

(** One of the two [for pattern in ...] loops: the count and the list of
    matches so far are extended by the matches of each pattern in turn;
    an exception of [re.findall] leaves the loop. *)
Fixpoint count_patterns (patterns : list string) (js_content : string)
    (count : nat) (matches : list string) : Re.result (nat * list string) :=
  match patterns with
  | nil => Re.Ok (count, matches)
  | pattern :: rest =>
      match Re.findall pattern js_content flags with
      | Re.Ok found =>
          count_patterns rest js_content (count + length found) (matches ++ found)
      | Re.BadEscape c n => Re.BadEscape c n
      | Re.Unsupported n => Re.Unsupported n
      end
  end.

Record analysis : Type :=
  { error_handling_patterns_count : nat;     (* 'error_handling_patterns' *)
    actual_errors : nat;
    error_handling_examples : list string;
    actual_error_examples : list string;
    likely_error_suppression : bool }.

Definition analyze_javascript_for_real_errors (js_content : string)
  : Re.result analysis :=
  match count_patterns error_handling_patterns js_content 0 nil with
  | Re.Ok (error_handling_count, error_handling_matches) =>
      match count_patterns actual_error_patterns js_content 0 nil with
      | Re.Ok (actual_error_count, actual_error_matches) =>
          Re.Ok {| error_handling_patterns_count := error_handling_count;
                   actual_errors := actual_error_count;
                   error_handling_examples := firstn 5 error_handling_matches;
                   actual_error_examples := firstn 5 actual_error_matches;
                   likely_error_suppression :=
                     (0 <? error_handling_count) && (actual_error_count =? 0) |}
      | Re.BadEscape c n => Re.BadEscape c n
      | Re.Unsupported n => Re.Unsupported n
      end
  | Re.BadEscape c n => Re.BadEscape c n
  | Re.Unsupported n => Re.Unsupported n
  end.

(** *** [analyze_main_application_script] (lines 104-159) *)

Definition main_script_pattern : string :=
  "<script[^>]*src=" +:+ chr dquote +:+ "([^" +:+ chr dquote +:+ "]*index[^" +:+
  chr dquote +:+ "]*\.js)" +:+ chr dquote +:+ "[^>]*>".

(** The dictionary the method returns: the analysis, or [{'error': ...}]. *)
Inductive script_analysis : Type :=
| Analysis (a : analysis)
| Error (message : string).

Definition analyze_main_application_script (base_url : string) (run : Subprocess.world)
  : script_analysis :=
  let argv0 := "curl" :: "-s" :: base_url :: nil in
  match run 0 argv0 with
  | Subprocess.Completed returncode html_content _ =>
      if negb (returncode =? 0)%Z then Error "Could not fetch HTML"
      else
        (* re.search(...).group(1): the group of the leftmost match *)
        match Re.findall main_script_pattern html_content Re.no_flags with
        | Re.Ok nil => Error "Could not find main application script"
        | Re.Ok (src :: _) =>
            let argv1 := "curl" :: "-s" :: (rstrip_slash base_url +:+ src) :: nil in
            match run 1 argv1 with
            | Subprocess.Completed returncode1 script_content _ =>
                if negb (returncode1 =? 0)%Z then Error "Could not fetch main script"
                else
                  match analyze_javascript_for_real_errors script_content with
                  | Re.Ok a => Analysis a
                  | Re.BadEscape c n => Error (Re.str_re_error c n)
                  | Re.Unsupported n => Error (Re.str_outside_fragment n)
                  end
            | Subprocess.TimeoutExpired => Error (Subprocess.str_timeout argv1 30)
            | Subprocess.Raised e => Error e
            end
        | Re.BadEscape c n => Error (Re.str_re_error c n)
        | Re.Unsupported n => Error (Re.str_outside_fragment n)
        end
  | Subprocess.TimeoutExpired => Error (Subprocess.str_timeout argv0 30)
  | Subprocess.Raised e => Error e
  end.

(** What [run_comprehensive_final_test] reads of the script analysis
    (lines 296-306): [script_analysis.get('actual_errors', 0) > 0] and the
    test that error suppression works. *)
Definition has_actual_errors (s : script_analysis) : bool :=
  match s with
  | Analysis a => 0 <? actual_errors a
  | Error _ => false
  end.
Definition error_suppression_working (s : script_analysis) : bool :=
  match s with
  | Analysis a => (0 <? error_handling_patterns_count a) && (actual_errors a =? 0)
  | Error _ => false
  end.

(** A returned analysis in which the text was counted in both groups. *)
Definition counted_in_both (r : Re.result analysis) : bool :=
  match r with
  | Re.Ok a => (0 <? error_handling_patterns_count a) && (0 <? actual_errors a)
  | _ => false
  end.

(** *** [test_page_functionality] (lines 70-102) *)

(** The two characters the source writes as ['\\n']: a backslash and the
    letter n. *)
Definition backslash_n : string := chr backslash +:+ "n".

Definition page_argv (base_url : string) : list string :=
  "curl" :: "-s" :: "-w" :: ("%{http_code}" +:+ backslash_n +:+ "%{time_total}")
  :: base_url :: nil.

Section PageFunctionality.

(** Python's floats enter by three operations: [float(s)] ([None] when it
    raises [ValueError]), the number [0], and the test [t < 5.0]. *)
Variable T : Type.
Variable float : string -> option T.
Variable zero : T.
Variable below_5 : T -> bool.

(** The dictionary the method returns. *)
Record page_test : Type :=
  { pt_page_loads : bool;
    pt_response_time : option T;
    pt_fast_response : option bool;
    pt_http_code : option string;
    pt_error : option string }.

Definition page_error (e : string) : page_test :=
  {| pt_page_loads := false; pt_response_time := None; pt_fast_response := None;
     pt_http_code := None; pt_error := Some e |}.

Definition page_result (http_code : string) (response_time : T) : page_test :=
  {| pt_page_loads := String.eqb http_code "200";
     pt_response_time := Some response_time;
     pt_fast_response := Some (below_5 response_time);
     pt_http_code := Some http_code; pt_error := None |}.

Definition test_page_functionality (base_url : string) (run : Subprocess.world)
  : page_test :=
  match run 0 (page_argv base_url) with
  | Subprocess.Completed returncode stdout _ =>
      if (returncode =? 0)%Z then
        let lines := split backslash_n (strip stdout) in
        (* lines[-2] and lines[-1] when len(lines) >= 2 *)
        match rev lines with
        | last :: before_last :: _ =>
            match float last with
            | Some response_time => page_result before_last response_time
            | None =>
                page_error ("could not convert string to float: '" +:+ last +:+ "'")
            end
        | _ => page_result "unknown" zero
        end
      else page_error "Request failed"
  | Subprocess.TimeoutExpired => page_error (Subprocess.str_timeout (page_argv base_url) 30)
  | Subprocess.Raised e => page_error e
  end.

(** *** [run_comprehensive_final_test] (lines 284-357) *)

(** The keys read of the results of [test_react_app_structure] and of
    [test_credential_functionality_indicators]. *)
Record react_structure_result : Type := { is_proper_react_app : option bool }.
Record credential_functionality_result : Type := { likely_functional : option bool }.

Inductive overall : Type := EXCELLENT | GOOD | FAIR | POOR.

Record final_report : Type :=
  { page_loads_without_console_errors : bool;        (* test 1 *)
    create_credential_button_functionality : bool;   (* test 2 *)
    overall_ui_interactions_functional : bool;       (* test 3 *)
    error_suppression_working_effectively : bool;    (* test 4 *)
    passed_tests : nat;
    total_tests : nat;
    overall_status : overall;
    important_finding_printed : bool;
    error_suppression_confirmed : bool }.

Definition count_true (l : list bool) : nat := length (List.filter (fun b => b) l).

(** The body of the method after the four tests have run. *)
Definition run_comprehensive_final_test (page_test_ : page_test)
    (script_analysis_ : script_analysis) (react_structure : react_structure_result)
    (credential_functionality : credential_functionality_result) : final_report :=
  let page_loads_properly := pt_page_loads page_test_ in
  let has_actual_errors_ := has_actual_errors script_analysis_ in
  let react_structure_good := default false (is_proper_react_app react_structure) in
  let credential_functionality_present :=
    default false (likely_functional credential_functionality) in
  let error_suppression_working_ := error_suppression_working script_analysis_ in
  let t1 := page_loads_properly && negb has_actual_errors_ in
  let t2 := credential_functionality_present in
  let t3 := react_structure_good && page_loads_properly in
  let t4 := error_suppression_working_ in
  let passed := count_true (t1 :: t2 :: t3 :: t4 :: nil) in
  let total := 4 in
  {| page_loads_without_console_errors := t1;
     create_credential_button_functionality := t2;
     overall_ui_interactions_functional := t3;
     error_suppression_working_effectively := t4;
     passed_tests := passed;
     total_tests := total;
     overall_status := if passed =? total then EXCELLENT
                       else if 3 <=? passed then GOOD
                       else if 2 <=? passed then FAIR
                       else POOR;
     important_finding_printed :=
       match script_analysis_ with
       | Analysis a => 0 <? error_handling_patterns_count a
       | Error _ => false
       end;
     error_suppression_confirmed := error_suppression_working_ |}.

(** The whole run: the page test and the script analysis are the
    methods above, each with the outcomes of its own calls of
    [subprocess.run]; the results of the two other tests are given. *)
Definition final_test (base_url : string) (run_page run_script : Subprocess.world)
    (react_structure : react_structure_result)
    (credential_functionality : credential_functionality_result) : final_report :=
  run_comprehensive_final_test (test_page_functionality base_url run_page)
    (analyze_main_application_script base_url run_script)
    react_structure credential_functionality.

End PageFunctionality.

Arguments pt_page_loads {T} _.
Arguments pt_response_time {T} _.
Arguments pt_fast_response {T} _.
Arguments pt_http_code {T} _.
Arguments pt_error {T} _.
Arguments page_error {T} e.
Arguments page_result {T} below_5 http_code response_time.
Arguments test_page_functionality {T} float zero below_5 base_url run.
Arguments run_comprehensive_final_test {T} page_test_ script_analysis_ react_structure
  credential_functionality.
Arguments final_test {T} float zero below_5 base_url run_page run_script react_structure
  credential_functionality.

Definition is_excellent (o : overall) : bool :=
  match o with EXCELLENT => true | _ => false end.

(** *** The page indicators of [test_credential_functionality_indicators]
    (lines 223-229) *)

Record credential_indicators_t : Type :=
  { title_mentions_credentials : bool;
    meta_description_relevant : bool;
    wallet_functionality : bool;
    persona_branding : bool;
    did_support : bool }.

Definition credential_indicators (html_content : string) : credential_indicators_t :=
  {| title_mentions_credentials :=
       contains "credential" (lower html_content) || contains "identity" (lower html_content);
     meta_description_relevant :=
       contains "digital identity" (lower html_content) ||
       contains "verifiable credentials" (lower html_content);
     wallet_functionality := contains "wallet" (lower html_content);
     persona_branding := contains "persona" (lower html_content);
     did_support := contains "DID" html_content || contains "did" (lower html_content) |}.

End FinalTest.

(* ===================================================================== *)
(** ** apps/wallet/advanced_personapass_test.py                          *)
(* ===================================================================== *)

Module Advanced.
Import PyStr.

Export Subprocess.

(** *** The outside world *)

(** What a promise of the Node script settles to. *)
Inductive fetch_outcome : Type :=
| Resolved (data : string)
| Rejected (message : string).

(** The outcome of the [n]-th [fetchScript] of the Node script. *)
Definition js_world : Type := nat -> string -> fetch_outcome.

(** *** Result dictionaries *)

(** The dictionaries the simulations return and the report object the
    Node script prints; a key that is absent is [None]. *)
Record simulation_result : Type :=
  { page_loads : option bool;
    html_valid : option bool;
    scripts_analyzed : option nat;
    total_scripts : option nat;
    scripts_loaded : option bool;
    total_errors : option nat;
    error_details : option (list string);
    button_simulation : option (bool * bool * bool);
    error_suppression_effective : option bool;
    timestamp : option string;
    simulation_output : option string;
    error : option string;
    method : option string }.

Definition no_keys : simulation_result :=
  {| page_loads := None; html_valid := None; scripts_analyzed := None;
     total_scripts := None; scripts_loaded := None; total_errors := None;
     error_details := None; button_simulation := None;
     error_suppression_effective := None; timestamp := None;
     simulation_output := None; error := None; method := None |}.

(** [{'error': e, 'method': m}] *)
Definition error_result (e m : string) : simulation_result :=
  {| page_loads := None; html_valid := None; scripts_analyzed := None;
     total_scripts := None; scripts_loaded := None; total_errors := None;
     error_details := None; button_simulation := None;
     error_suppression_effective := None; timestamp := None;
     simulation_output := None; error := Some e; method := Some m |}.

(** *** [run_alternative_simulation] (lines 325-398) *)

Definition script_pattern : string :=
  "<script[^>]*src=" +:+ quoted ("([^" +:+ chr dquote +:+ "]*)") +:+ "[^>]*>".

Definition error_patterns : list string :=
  "SyntaxError" ::
  "Invalid or unexpected token" ::
  "Node cannot be found" ::
  "Uncaught.*Error" ::
  "TypeError.*not defined" ::
  "ReferenceError" :: nil.

(** [for pattern in error_patterns: total_errors.extend(re.findall(...))];
    the second component is the [str()] of the exception that left the
    loop, if one did. *)
Fixpoint find_error_patterns (patterns : list string) (script_content : string)
    (total_errors : list string) : list string * option string :=
  match patterns with
  | nil => (total_errors, None)
  | pattern :: rest =>
      match Re.findall pattern script_content Re.no_flags with
      | Re.Ok matches =>
          find_error_patterns rest script_content (total_errors ++ matches)
      | Re.BadEscape c n => (total_errors, Some (Re.str_re_error c n))
      | Re.Unsupported n => (total_errors, Some (Re.str_outside_fragment n))
      end
  end.

Definition script_url_of (base_url script : string) : string :=
  if startswith "/" script then rstrip_slash base_url +:+ script else script.

(** The loop [for script in scripts] (lines 352-383); [call] numbers the
    calls of [subprocess.run]. *)
Fixpoint analyze_scripts (base_url : string) (run : world) (scripts : list string)
    (call : nat) (total_errors : list string) (analyzed : nat) : list string * nat :=
  match scripts with
  | nil => (total_errors, analyzed)
  | script :: rest =>
      if endswith ".js" script then
        match run call ("curl" :: "-s" :: script_url_of base_url script :: nil) with
        | Completed returncode script_content _ =>
            if (returncode =? 0)%Z then
              match find_error_patterns error_patterns script_content total_errors with
              | (total_errors', None) =>
                  analyze_scripts base_url run rest (S call) total_errors' (S analyzed)
              | (total_errors', Some e) =>
                  analyze_scripts base_url run rest (S call)
                    (total_errors' ++ ("Script error: " +:+ script +:+ " - " +:+ e) :: nil)
                    analyzed
              end
            else analyze_scripts base_url run rest (S call) total_errors analyzed
        | TimeoutExpired =>
            analyze_scripts base_url run rest (S call)
              (total_errors ++ ("Script timeout: " +:+ script) :: nil) analyzed
        | Raised e =>
            analyze_scripts base_url run rest (S call)
              (total_errors ++ ("Script error: " +:+ script +:+ " - " +:+ e) :: nil)
              analyzed
        end
      else analyze_scripts base_url run rest call total_errors analyzed
  end.

(** The dictionary of lines 385-393. *)
Definition curl_report (page_loads_ : bool) (html_content : string)
    (scripts total_errors_ : list string) (analyzed : nat) : simulation_result :=
  {| page_loads := Some page_loads_;
     html_valid := Some (contains ("id=" +:+ quoted "root") html_content);
     scripts_analyzed := Some analyzed;
     total_scripts := Some (length (List.filter (endswith ".js") scripts));
     scripts_loaded := None;
     total_errors := Some (length total_errors_);
     error_details := Some (firstn 10 total_errors_);
     button_simulation := None; error_suppression_effective := None;
     timestamp := None; simulation_output := None; error := None;
     method := Some "curl_analysis" |}.

Definition run_alternative_simulation (base_url : string) (run : world)
  : simulation_result :=
  let argv0 := "curl" :: "-s" :: "-w" :: "%{http_code}" :: base_url :: nil in
  let argv1 := "curl" :: "-s" :: base_url :: nil in
  match run 0 argv0 with
  | Completed returncode stdout _ =>
      let page_loads_ :=
        (returncode =? 0)%Z && contains "200" (drop (String.length stdout - 3) stdout) in
      match run 1 argv1 with
      | Completed returncode1 html_content _ =>
          if (returncode1 =? 0)%Z then
            match Re.findall script_pattern html_content Re.no_flags with
            | Re.Ok scripts =>
                let '(total_errors_, analyzed) :=
                  analyze_scripts base_url run scripts 2 nil 0 in
                curl_report page_loads_ html_content scripts total_errors_ analyzed
            | Re.BadEscape c n => error_result (Re.str_re_error c n) "curl_analysis"
            | Re.Unsupported n => error_result (Re.str_outside_fragment n) "curl_analysis"
            end
          else error_result "Could not fetch HTML" "curl_analysis"
      | TimeoutExpired => error_result (str_timeout argv1 30) "curl_analysis"
      | Raised e => error_result e "curl_analysis"
      end
  | TimeoutExpired => error_result (str_timeout argv0 30) "curl_analysis"
  | Raised e => error_result e "curl_analysis"
  end.

(** *** The Node script of [create_browser_simulation_script] *)

Definition errorPatterns : list string :=
  "SyntaxError" ::
  "Invalid or unexpected token" ::
  "Node cannot be found" ::
  "Uncaught" ::
  "TypeError" ::
  "ReferenceError" ::
  "Cannot read property" ::
  "Cannot read properties of" ::
  "is not defined" ::
  "is not a function" :: nil.

(** [analyzeForErrors(content)]: every pattern is a plain text searched
    globally. *)
Definition analyzeForErrors (content : string) : list string :=
  flat_map (fun pattern => Re.scan Re.no_flags (Re.literal pattern) content 0 true)
           errorPatterns.

(** The loop [for (const script of scripts)] of [runTest] (lines 197-214). *)
Fixpoint js_analyze_scripts (fetchScript : js_world) (scripts : list string)
    (call : nat) (totalErrors : list string) : list string :=
  match scripts with
  | nil => totalErrors
  | script :: rest =>
      if endswith ".js" script then
        match fetchScript call script with
        | Resolved scriptContent =>
            js_analyze_scripts fetchScript rest (S call)
              (totalErrors ++ analyzeForErrors scriptContent)
        | Rejected _ =>
            js_analyze_scripts fetchScript rest (S call)
              (totalErrors ++ ("Script load error: " +:+ script) :: nil)
        end
      else js_analyze_scripts fetchScript rest call totalErrors
  end.

(** The report object of [runTest] (lines 223-232), from the page text,
    the script sources found in it and the collected errors. *)
Definition js_report (now : string) (htmlContent : string) (scripts totalErrors : list string)
  : simulation_result :=
  let hasRoot := contains ("id=" +:+ quoted "root") htmlContent in
  let hasReact := contains "React" htmlContent ||
                  contains ("type=" +:+ quoted "module") htmlContent in
  {| page_loads := Some true;
     html_valid := Some (hasRoot && hasReact);
     scripts_analyzed := None; total_scripts := None;
     scripts_loaded := Some (0 <? length scripts);
     total_errors := Some (length totalErrors);
     error_details := Some (firstn 10 totalErrors);
     button_simulation := Some (true, true, true);
     error_suppression_effective := Some (length totalErrors =? 0);
     timestamp := Some now; simulation_output := None; error := None;
     method := None |}.

(** *** [run_comprehensive_test] (lines 479-543) *)

(** The one key of [test_create_credential_button]'s result that is read. *)
Record button_test_result : Type := { likely_functional : option bool }.

Inductive assessment : Type := EXCELLENT | GOOD | FAIR | POOR.

Record final_results : Type :=
  { page_loads_without_errors : bool;
    create_credential_button_functional : bool;
    ui_interactions_functional : bool;
    error_suppression_working : bool;
    syntax_errors_found : list string;
    node_errors_found : list string;
    simulation_details : simulation_result;
    button_test_details : button_test_result;
    overall_assessment : assessment }.

Definition is_empty {A} (l : list A) : bool :=
  match l with nil => true | _ => false end.

(** The body of [run_comprehensive_test] after the two tests have run. *)
Definition run_comprehensive_test (simulation_result_ : simulation_result)
    (button_test_result_ : button_test_result) : final_results :=
  let page_loads_ := default false (page_loads simulation_result_) in
  let has_errors := 0 <? default 0 (total_errors simulation_result_) in
  let button_likely_works := default false (likely_functional button_test_result_) in
  let error_details_ := default nil (error_details simulation_result_) in
  let syntax_errors :=
    List.filter (fun e => contains "SyntaxError" e ||
                          contains "Invalid or unexpected token" e) error_details_ in
  let node_errors :=
    List.filter (fun e => contains "Node cannot be found" e) error_details_ in
  let overall_status :=
    if page_loads_ && negb has_errors && button_likely_works then EXCELLENT
    else if page_loads_ && is_empty syntax_errors && is_empty node_errors then GOOD
    else if page_loads_ then FAIR
    else POOR in
  {| page_loads_without_errors := page_loads_ && negb has_errors;
     create_credential_button_functional := button_likely_works;
     ui_interactions_functional := page_loads_;
     error_suppression_working := is_empty syntax_errors && is_empty node_errors;
     syntax_errors_found := syntax_errors;
     node_errors_found := node_errors;
     simulation_details := simulation_result_;
     button_test_details := button_test_result_;
     overall_assessment := overall_status |}.

(** *** [run_browser_simulation] (lines 261-323) *)

(** [read_report] stands for lines 285-300: the text that follows the
    report marker in the Node script's output, read by [json.loads];
    [None] when there is no marker or the text is not a JSON document.
    [temp_script] is the name of the temporary script file. *)
Definition run_browser_simulation (base_url temp_script : string) (run : world)
    (read_report : string -> option simulation_result) : simulation_result :=
  match run 0 ("which" :: "node" :: nil) with
  | Completed returncode _ _ =>
      if negb (returncode =? 0)%Z
      then run_alternative_simulation base_url (fun n => run (S n))
      else
        match run 1 ("node" :: temp_script :: base_url :: nil) with
        | Completed returncode1 stdout stderr =>
            if (returncode1 =? 0)%Z then
              match read_report stdout with
              | Some report => report
              | None =>
                  {| page_loads := Some (contains "Fetching main page" stdout);
                     html_valid := None; scripts_analyzed := None;
                     total_scripts := None; scripts_loaded := None;
                     total_errors := None; error_details := None;
                     button_simulation := None;
                     error_suppression_effective := None; timestamp := None;
                     simulation_output := Some stdout; error := None;
                     method := Some "node_simulation" |}
              end
            else error_result stderr "node_simulation"
        | TimeoutExpired => error_result "Simulation timeout" "node_simulation"
        | Raised e => error_result e "node_simulation"
        end
  | TimeoutExpired => error_result "Simulation timeout" "node_simulation"
  | Raised e => error_result e "node_simulation"
  end.

(** The three results the error-suppression verdict consists of. *)
Definition verdict (r : final_results) : list string * list string * bool :=
  (syntax_errors_found r, node_errors_found r, error_suppression_working r).

(** *** Reading the report of the Node script (lines 285-300) *)

Definition report_marker : string := "=== SIMULATION REPORT ===".

(** The lines after the first line that holds the marker
    ([output_lines[json_start:]]); [None] when no line holds it
    ([json_start] stays -1). *)
Fixpoint after_marker (output_lines : list string) : option (list string) :=
  match output_lines with
  | nil => None
  | line :: rest =>
      if contains report_marker line then Some rest else after_marker rest
  end.

(** [json_loads] is [json.loads] ([None] when it raises
    [JSONDecodeError]). *)
Definition read_report (json_loads : string -> option simulation_result)
    (stdout : string) : option simulation_result :=
  match after_marker (split (chr newline) (strip stdout)) with
  | Some rest => json_loads (join (chr newline) rest)
  | None => None
  end.

(** *** [runTest] of the Node script (lines 173-247) *)

(** [fetchScript] resolves a script source that starts with a slash
    against the page URL without its last segment
    ([this.url.replace(/\/[^\/]*$/, '')]: the text from the last slash
    on is removed). *)
Fixpoint without_last_segment (url : string) : string :=
  match url with
  | EmptyString => EmptyString
  | String c url' =>
      if Ascii.eqb c "/" && negb (contains "/" url') then EmptyString
      else String c (without_last_segment url')
  end.

Definition fullUrl (url scriptUrl : string) : string :=
  if startswith "/" scriptUrl then without_last_segment url +:+ scriptUrl else scriptUrl.

(** The script sources of the page: every script tag with a [src]
    attribute, and of each the first [src] attribute. *)
Definition script_tag_pattern : string :=
  "<script[^>]*src=" +:+ quoted ("[^" +:+ chr dquote +:+ "]*") +:+ "[^>]*>".
Definition src_pattern : string :=
  "src=" +:+ quoted ("([^" +:+ chr dquote +:+ "]*)").

Definition matches_of (pattern text : string) : list string :=
  match Re.findall pattern text Re.no_flags with
  | Re.Ok l => l
  | _ => nil
  end.

Definition js_scripts (htmlContent : string) : list string :=
  map (fun tag => hd EmptyString (matches_of src_pattern tag))
      (matches_of script_tag_pattern htmlContent).

Definition js_bool (b : bool) : string := if b then "true" else "false".

(** The script loop with what it writes by [console.log]. *)
Fixpoint js_analyze_scripts_log (fetchScript : js_world) (scripts : list string)
    (call : nat) (totalErrors log : list string) : list string * list string :=
  match scripts with
  | nil => (totalErrors, log)
  | script :: rest =>
      if endswith ".js" script then
        match fetchScript call script with
        | Resolved scriptContent =>
            let errors := analyzeForErrors scriptContent in
            js_analyze_scripts_log fetchScript rest (S call) (totalErrors ++ errors)
              (log ++ ("Fetching script: " +:+ script)
                   :: ("Script " +:+ script +:+ ": " +:+ of_nat (length errors)
                       +:+ " potential errors found") :: nil)
        | Rejected message =>
            js_analyze_scripts_log fetchScript rest (S call)
              (totalErrors ++ ("Script load error: " +:+ script) :: nil)
              (log ++ ("Fetching script: " +:+ script)
                   :: ("Failed to fetch script " +:+ script +:+ ": " +:+ message) :: nil)
        end
      else js_analyze_scripts_log fetchScript rest call totalErrors log
  end.

(** [runTest]: what it writes by [console.log], one text per call, and
    what it returns.  [inspect] is the text Node prints for an array of
    strings and [stringify] is [JSON.stringify(report, null, 2)]. *)
Definition runTest (now url : string) (fetchPage : fetch_outcome) (fetchScript : js_world)
    (inspect : list string -> string) (stringify : simulation_result -> string)
  : list string * simulation_result :=
  let start := "Starting browser simulation test..." :: "Fetching main page..." :: nil in
  match fetchPage with
  | Resolved htmlContent =>
      let hasRoot := contains ("id=" +:+ quoted "root") htmlContent in
      let hasReact := contains "React" htmlContent ||
                      contains ("type=" +:+ quoted "module") htmlContent in
      let scripts := js_scripts htmlContent in
      let '(totalErrors, log) :=
        js_analyze_scripts_log fetchScript scripts 0 nil
          (start ++ ("HTML Analysis: Root=" +:+ js_bool hasRoot +:+ ", React=" +:+
                     js_bool hasReact)
                 :: ("Found " +:+ of_nat (length scripts) +:+ " scripts: " +:+
                     inspect scripts) :: nil) in
      let report := js_report now htmlContent scripts totalErrors in
      (log ++ "Simulating button search..."
           :: (chr newline +:+ report_marker)
           :: stringify report :: nil,
       report)
  | Rejected message =>
      (* console.error writes to the standard error *)
      (start,
       {| page_loads := Some false; html_valid := None; scripts_analyzed := None;
          total_scripts := None; scripts_loaded := None; total_errors := None;
          error_details := None; button_simulation := None;
          error_suppression_effective := None; timestamp := Some now;
          simulation_output := None; error := Some message; method := None |})
  end.

(** The standard output of the script: every text followed by a line feed. *)
Fixpoint js_stdout (log : list string) : string :=
  match log with
  | nil => EmptyString
  | text :: rest => text +:+ chr newline +:+ js_stdout rest
  end.

(** *** [test_create_credential_button] (lines 400-477) *)

Definition credential_indicators : list string :=
  "credential" :: "create" :: "wallet" :: "identity" :: "DID" :: "verifiable" :: nil.

Definition found_indicators (html_content : string) : list string :=
  List.filter (fun indicator => contains (lower indicator) (lower html_content))
              credential_indicators.

Definition main_script_pattern : string :=
  "<script[^>]*src=" +:+ chr dquote +:+ "([^" +:+ chr dquote +:+ "]*index[^" +:+
  chr dquote +:+ "]*\.js)" +:+ chr dquote +:+ "[^>]*>".

Definition button_patterns : list string :=
  "button" :: "onClick" :: "addEventListener" :: "createElement.*button" :: nil.

Definition ignorecase : Re.flags := {| Re.MULTILINE := false; Re.IGNORECASE := true |}.

(** [script_analysis]: the empty dictionary, the button patterns found,
    or the [str()] of an exception. *)
Inductive button_script_analysis : Type :=
| NoScriptAnalysis
| ButtonPatterns (patterns : list string)
| ScriptAnalysisError (message : string).

(** [for pattern in button_patterns: if re.search(...): append]; the
    second component is the exception that left the loop. *)
Fixpoint find_button_patterns (patterns : list string) (script_content : string)
    (button_indicators : list string) : list string * option string :=
  match patterns with
  | nil => (button_indicators, None)
  | pattern :: rest =>
      match Re.findall pattern script_content ignorecase with
      | Re.Ok nil => find_button_patterns rest script_content button_indicators
      | Re.Ok (_ :: _) =>
          find_button_patterns rest script_content (button_indicators ++ pattern :: nil)
      | Re.BadEscape c n => (button_indicators, Some (Re.str_re_error c n))
      | Re.Unsupported n => (button_indicators, Some (Re.str_outside_fragment n))
      end
  end.

(** The dictionary the method returns. *)
Inductive button_test : Type :=
| ButtonReport (credential_indicators_ : list string) (indicators_count : nat)
    (script_analysis : button_script_analysis) (likely_functional_ : bool)
| ButtonError (message : string).

Definition test_create_credential_button (base_url : string) (run : world) : button_test :=
  let argv0 := "curl" :: "-s" :: base_url :: nil in
  match run 0 argv0 with
  | Completed returncode html_content _ =>
      if (returncode =? 0)%Z then
        let found := found_indicators html_content in
        match Re.findall main_script_pattern html_content Re.no_flags with
        | Re.Ok scripts =>
            let script_analysis :=
              match scripts with
              | nil => NoScriptAnalysis
              | src :: _ =>
                  let argv1 := "curl" :: "-s" :: (rstrip_slash base_url +:+ src) :: nil in
                  match run 1 argv1 with
                  | Completed returncode1 script_content _ =>
                      if (returncode1 =? 0)%Z then
                        match find_button_patterns button_patterns script_content nil with
                        | (button_indicators, None) => ButtonPatterns button_indicators
                        | (_, Some e) => ScriptAnalysisError e
                        end
                      else NoScriptAnalysis
                  | TimeoutExpired => ScriptAnalysisError (str_timeout argv1 15)
                  | Raised e => ScriptAnalysisError e
                  end
              end in
            ButtonReport found (length found) script_analysis (3 <=? length found)
        | Re.BadEscape c n => ButtonError (Re.str_re_error c n)
        | Re.Unsupported n => ButtonError (Re.str_outside_fragment n)
        end
      else ButtonError "Could not fetch page"
  | TimeoutExpired => ButtonError (str_timeout argv0 30)
  | Raised e => ButtonError e
  end.

(** What [run_comprehensive_test] reads of the dictionary. *)
Definition button_result_of (b : button_test) : button_test_result :=
  match b with
  | ButtonReport _ _ _ likely => {| likely_functional := Some likely |}
  | ButtonError _ => {| likely_functional := None |}
  end.

(** The whole comprehensive test: the simulation and the button test,
    each with the outcomes of its own calls of [subprocess.run]. *)
Definition comprehensive_test (base_url temp_script : string) (run_simulation run_button : world)
    (json_loads : string -> option simulation_result) : final_results :=
  run_comprehensive_test
    (run_browser_simulation base_url temp_script run_simulation (read_report json_loads))
    (button_result_of (test_create_credential_button base_url run_button)).

(** What an overall assessment says of a report built from the collected
    errors [errs] for a page that loaded or not. *)
Definition assessment_explained (page_loads_ : bool) (errs : list string)
    (button : button_test_result) (r : final_results) : Prop :=
  match overall_assessment r with
  | EXCELLENT => page_loads_ = true /\ errs = nil /\ likely_functional button = Some true
  | GOOD => page_loads_ = true /\ error_suppression_working r = true
  | FAIR => page_loads_ = true /\ error_suppression_working r = false
  | POOR => page_loads_ = false
  end.

(** The number of scripts the loops fetch. *)
Definition js_scripts_count (scripts : list string) : nat :=
  length (List.filter (endswith ".js") scripts).

(** What an entry of [totalErrors] of [runTest] can be: a pattern text of
    [analyzeForErrors] (lines 126-150) or the load error of a fetched script
    (line 211). *)
Definition node_entry (scripts : list string) (e : string) : Prop :=
  In e errorPatterns \/
  exists script, In script scripts /\ endswith ".js" script = true /\
                 e = "Script load error: " +:+ script.

End Advanced.

(* ===================================================================== *)
(** ** The specification's correlation rule, and the scenarios            *)
(* ===================================================================== *)

Module Spec.
Import DebugCredentials.

Definition unmatched_for (response : Response) (req : request_data) : bool :=
  String.eqb (rq_url req) (response_url response) &&
  match rq_response req with None => true | Some _ => false end.

(** The rule as the specification words it, on the requests taken from
    the most recent to the oldest: the first request met that has the
    URL of the response and no response yet is linked to it; when
    there is none the response is an orphan and no request changes. *)
Fixpoint link_most_recent (response : Response) (newest_first : list request_data)
  : list request_data :=
  match newest_first with
  | nil => nil
  | req :: older =>
      if unmatched_for response req
      then update req response :: older
      else req :: link_most_recent response older
  end.

Definition spec_correlate (response : Response) (reqs : list request_data)
  : list request_data :=
  rev (link_most_recent response (rev reqs)).

End Spec.

Module Scenario.
Import PyStr DebugCredentials.

Definition content_type (t : string) : gmap string string := {[ "content-type" := t ]}.

Definition get_request (url : string) : Request :=
  {| request_method := "GET"; request_url := url;
     request_headers := ∅; request_resource_type := "script" |}.

(** The entry [handle_request] records for [get_request url] at [now]. *)
Definition pending (now url : string) : request_data :=
  {| rq_timestamp := now; rq_method := "GET"; rq_url := url;
     rq_headers := ∅; rq_resource_type := "script"; rq_response := None |}.

Definition with_requests (reqs : list request_data) : debug_data_t :=
  {| console_logs := nil; network_requests := reqs; errors := nil;
     page_state := empty_page_state |}.

(** Scenario D: the script is answered with status 200 and an HTML body. *)
Definition app_js_as_html : Response :=
  {| response_url := "/assets/app.js"; response_status := 200;
     response_status_text := "OK";
     response_headers := content_type "text/html"; response_ok := true |}.

(** The same answer with status 404. *)
Definition app_js_missing : Response :=
  {| response_url := "/assets/app.js"; response_status := 404;
     response_status_text := "Not Found";
     response_headers := content_type "text/html"; response_ok := false |}.

Definition api_ok : Response :=
  {| response_url := "/api/credentials"; response_status := 200;
     response_status_text := "OK";
     response_headers := content_type "application/json"; response_ok := true |}.

Definition api_failed : Response :=
  {| response_url := "/api/credentials"; response_status := 500;
     response_status_text := "Internal Server Error";
     response_headers := content_type "application/json"; response_ok := false |}.

(** Two requests to one URL, neither answered yet. *)
Definition two_pending : debug_data_t :=
  with_requests (pending "t1" "/api/credentials" :: pending "t2" "/api/credentials" :: nil).

(** One request, still waiting for its answer. *)
Definition one_pending : debug_data_t :=
  with_requests (pending "t1" "/assets/app.js" :: nil).

(** Scenario A: the console event. *)
Definition uncaught_text : string := "Uncaught SyntaxError: Unexpected token".
Definition uncaught : ConsoleMessage :=
  {| msg_type := "error"; msg_text := uncaught_text; msg_location := None |}.

(** A page with one script, as [curl -s -w] and [curl -s] print it. *)
Definition base_url : string := "https://wallet.example/credentials".
Definition page_html : string :=
  "<html><body><div id=" +:+ quoted "root" +:+ "></div><script src=" +:+
  quoted "/assets/app.js" +:+ "></script></body></html>".

(** The page loads; the fetch of its script ends as [script_fetch] says. *)
Definition page_then (script_fetch : Subprocess.run_outcome) : Subprocess.world :=
  fun n _ =>
    match n with
    | 0 => Subprocess.Completed 0 (page_html +:+ "200") EmptyString
    | 1 => Subprocess.Completed 0 page_html EmptyString
    | _ => script_fetch
    end.

(** curl could not connect: exit status 7, nothing on standard output. *)
Definition connection_failed : Subprocess.run_outcome :=
  Subprocess.Completed 7 EmptyString "curl: (7) Failed to connect".

(** The Node script's fetch of the script is rejected. *)
Definition rejecting : Advanced.js_world :=
  fun _ script => Advanced.Rejected ("HTTP 404 for " +:+ script).

(** Ten collected errors of no listed kind, and an eleventh of a listed kind. *)
Definition ten_type_errors : list string := repeat "TypeError" 10.
Definition eleventh : list string := "Node cannot be found" :: "SyntaxError" :: nil.

(** What [curl -s -w] prints for a page that loads: the page, the status
    code, a line feed and the time. *)
Definition curl_page_output : string :=
  page_html +:+ "200" +:+ chr newline +:+ "0.123".
Definition page_loaded : Subprocess.world :=
  fun _ _ => Subprocess.Completed 0 curl_page_output EmptyString.

(** The Node script cannot fetch the page: what it writes before it
    gives up. *)
Definition node_output_on_page_failure : string :=
  Advanced.js_stdout
    (fst (Advanced.runTest "t" base_url (Advanced.Rejected "HTTP 500") rejecting
            (fun _ => EmptyString) (fun _ => EmptyString))).

(** Node is installed and the script ends with exit status 0 and the
    given output. *)
Definition node_prints (stdout : string) : Subprocess.world :=
  fun n _ =>
    match n with
    | 0 => Subprocess.Completed 0 "/usr/bin/node" EmptyString
    | _ => Subprocess.Completed 0 stdout EmptyString
    end.

(** No call of curl comes back in time. *)
Definition all_time_out : Subprocess.world := fun _ _ => Subprocess.TimeoutExpired.

End Scenario.

(** ** Sessions of the recorder *)

Module Session.
Import PyStr DebugCredentials.

Definition is_console (e : event) : bool :=
  match e with Console _ _ => true | _ => false end.
Definition is_request (e : event) : bool :=
  match e with RequestEvent _ _ => true | _ => false end.
Definition is_page_error (e : event) : bool :=
  match e with PageError _ _ => true | _ => false end.

(** The responses among the events, in the order of their arrival. *)
Definition responses_of (es : list event) : list Response :=
  flat_map (fun e => match e with ResponseEvent r => r :: nil | _ => nil end) es.

(** The response keys that [update] writes for a response. *)
Definition fields_of (response : Response) : response_fields :=
  {| status := response_status response;
     status_text := response_status_text response;
     headers_response := response_headers response;
     ok := response_ok response |}.

(** The entry [handle_request] appends for a request. *)
Definition entry_of (now : string) (request : Request) : request_data :=
  {| rq_timestamp := now; rq_method := request_method request;
     rq_url := request_url request; rq_headers := request_headers request;
     rq_resource_type := request_resource_type request; rq_response := None |}.

(** The requests that have no response. *)
Definition pending_requests (d : debug_data_t) : list request_data :=
  List.filter (fun req => negb (has_status req)) (network_requests d).

Definition is_console_line (l : line) : bool :=
  match l with ConsoleLine _ _ => true | _ => false end.

(** The console line an event is echoed with: one for a console message
    of level error or warning, none for anything else. *)
Definition echo_of (e : event) : list line :=
  match e with
  | Console _ msg =>
      if String.eqb (msg_type msg) "error" || String.eqb (msg_type msg) "warning"
      then ConsoleLine (upper (msg_type msg)) (msg_text msg) :: nil
      else nil
  | _ => nil
  end.

End Session.

(** Short names for the modules the properties are about. *)
Module DC := DebugCredentials.
Module DW := DebugWalletErrors.

(* ===================================================================== *)
(** * Properties                                                          *)
(* ===================================================================== *)

(** ** The pattern tables *)

Module ReFacts.
Import PyStr Re.

(** Every pattern of the scripts lies in the modelled fragment. *)
Lemma patterns_in_fragment :
  forallb in_fragment
    (FinalTest.error_handling_patterns ++ FinalTest.actual_error_patterns ++
     Advanced.error_patterns ++ Advanced.script_pattern :: Advanced.errorPatterns) = true.
Proof. vm_compute. reflexivity. Qed.

(** The plain texts of the Node script compile to themselves. *)
Lemma errorPatterns_literal :
  map compile Advanced.errorPatterns = map (fun p => Ok (literal p)) Advanced.errorPatterns.
Proof. vm_compute. reflexivity. Qed.

(** The sixth and the seventh error-handling pattern carry a backslash
    before a letter that is no escape of [re]: compiling them raises
    [re.error] (bad escape \i at position 11, bad escape \m at
    position 9). *)
Lemma error_handling_pattern_6_bad_escape :
  map compile (firstn 2 (skipn 5 FinalTest.error_handling_patterns))
  = BadEscape "i" 11 :: BadEscape "m" 9 :: nil.
Proof. vm_compute. reflexivity. Qed.

Lemma findall_bad_escape (pattern text : string) (f : flags) (c : ascii) (n : nat) :
  compile pattern = BadEscape c n -> findall pattern text f = BadEscape c n.
Proof. intros H. unfold findall. rewrite H. reflexivity. Qed.

Lemma findall_ok (pattern text : string) (f : flags) (r : regex) :
  compile pattern = Ok r -> findall pattern text f = Ok (scan f r text 0 true).
Proof. intros H. unfold findall. rewrite H. reflexivity. Qed.

End ReFacts.

Module FinalTestFacts.
Import PyStr FinalTest.

(** A loop over a table whose first pattern compiles goes on with the
    rest of the table. *)
Lemma count_patterns_cons_ok pattern rest js count matches r :
  Re.compile pattern = Re.Ok r ->
  count_patterns (pattern :: rest) js count matches
  = count_patterns rest js (count + length (Re.scan flags r js 0 true))
      (matches ++ Re.scan flags r js 0 true).
Proof. intros H. simpl. rewrite (ReFacts.findall_ok _ _ _ _ H). reflexivity. Qed.

Lemma count_patterns_cons_bad pattern rest js count matches c n :
  Re.compile pattern = Re.BadEscape c n ->
  count_patterns (pattern :: rest) js count matches = Re.BadEscape c n.
Proof. intros H. simpl. rewrite (ReFacts.findall_bad_escape _ _ _ _ _ H). reflexivity. Qed.

(** The first loop never gets past its sixth pattern. *)
Lemma error_handling_loop_raises js count matches :
  count_patterns error_handling_patterns js count matches = Re.BadEscape "i" 11.
Proof.
  unfold error_handling_patterns.
  do 5 (erewrite count_patterns_cons_ok by (vm_compute; reflexivity)).
  apply count_patterns_cons_bad. vm_compute. reflexivity.
Qed.

(** Whatever the script text, [analyze_javascript_for_real_errors]
    raises [re.error] and returns no analysis. *)
Lemma analyze_javascript_for_real_errors_raises js :
  analyze_javascript_for_real_errors js = Re.BadEscape "i" 11.
Proof.
  unfold analyze_javascript_for_real_errors.
  rewrite error_handling_loop_raises. reflexivity.
Qed.

(** So the caller never gets an analysis: it catches the exception and
    returns an error dictionary, or has returned one before. *)
Lemma analyze_main_application_script_error base_url run :
  exists message, analyze_main_application_script base_url run = Error message.
Proof.
  unfold analyze_main_application_script.
  destruct (run 0 _) as [rc html err | | e]; [| eexists; reflexivity ..].
  destruct (negb (rc =? 0)%Z); [eexists; reflexivity |].
  destruct (Re.findall main_script_pattern html Re.no_flags) as [[|src rest] | c n | n];
    [eexists; reflexivity | | eexists; reflexivity ..].
  destruct (run 1 _) as [rc1 script err1 | | e]; [| eexists; reflexivity ..].
  destruct (negb (rc1 =? 0)%Z); [eexists; reflexivity |].
  rewrite analyze_javascript_for_real_errors_raises. eexists. reflexivity.
Qed.

Lemma error_suppression_never_confirmed base_url run :
  error_suppression_working (analyze_main_application_script base_url run) = false /\
  has_actual_errors (analyze_main_application_script base_url run) = false.
Proof.
  destruct (analyze_main_application_script_error base_url run) as [message ->].
  split; reflexivity.
Qed.

(** The two tables are not exclusive by themselves: on a text that
    quotes the error name after an uncaught error, the well-formed
    patterns of the first table and the patterns of the second table
    both find matches. *)
Remark tables_overlap :
  let text := "Uncaught SyntaxError: " +:+ quoted "SyntaxError" in
  count_patterns (firstn 5 error_handling_patterns) text 0 nil
    = Re.Ok (1, quoted "SyntaxError" :: nil) /\
  count_patterns actual_error_patterns text 0 nil
    = Re.Ok (1, "Uncaught SyntaxError" :: nil).
Proof. vm_compute. split; reflexivity. Qed.

End FinalTestFacts.

Module DebugWalletErrorsFacts.
Import PyStr DebugWalletErrors.

Lemma suppressed_xor_genuine (msg : console_message) :
  is_suppressed msg && is_genuine msg = false.
Proof.
  unfold is_suppressed, is_genuine.
  destruct (contains "suppressed" (lower (cm_text msg))); simpl.
  - apply andb_false_r.
  - reflexivity.
Qed.

Lemma filter_filter_none {A} (p q : A -> bool) (l : list A) :
  (forall x, p x && q x = false) -> List.filter q (List.filter p l) = nil.
Proof.
  intros H. induction l as [|x l IH]; simpl; [reflexivity|].
  destruct (p x) eqn:Hp; simpl; [|exact IH].
  specialize (H x). rewrite Hp in H. simpl in H. rewrite H. exact IH.
Qed.

End DebugWalletErrorsFacts.

(** C1. No console message is counted both as a suppressed (handled)
    error and as a genuine error by the wallet analysis: filtering either
    list by the other's condition leaves nothing.  The script analysis of
    the final test never returns an analysis in which a text is counted
    in both pattern groups (it returns none at all: its first loop stops
    with [re.error] at the sixth pattern). *)
Theorem C1_classification_exclusive :
  forall (msgs : list DebugWalletErrors.console_message) (js_content : string),
    List.filter DebugWalletErrors.is_genuine (DebugWalletErrors.suppressed_errors msgs) = nil /\
    List.filter DebugWalletErrors.is_suppressed (DebugWalletErrors.genuine_errors msgs) = nil /\
    FinalTest.counted_in_both (FinalTest.analyze_javascript_for_real_errors js_content) = false.
Proof.
  intros msgs js. split; [|split].
  - apply DebugWalletErrorsFacts.filter_filter_none.
    apply DebugWalletErrorsFacts.suppressed_xor_genuine.
  - apply DebugWalletErrorsFacts.filter_filter_none.
    intros x. rewrite andb_comm. apply DebugWalletErrorsFacts.suppressed_xor_genuine.
  - rewrite FinalTestFacts.analyze_javascript_for_real_errors_raises. reflexivity.
Qed.

(** ** The session recorder of [debug_credentials.py] *)

Module DebugCredentialsFacts.
Import PyStr DebugCredentials.

(** *** The loop that looks for the corresponding request *)

Lemma find_corresponding_request_first response reqs i req :
  reqs !! i = Some req ->
  rq_url req = response_url response ->
  (forall j req', j < i -> reqs !! j = Some req' -> rq_url req' <> response_url response) ->
  find_corresponding_request response reqs = <[i := update req response]> reqs.
Proof.
  revert i. induction reqs as [|r reqs IH]; intros i Hi Hurl Hbefore.
  - discriminate Hi.
  - destruct i as [|i]; simpl in *.
    + injection Hi as ->. rewrite Hurl, String.eqb_refl. reflexivity.
    + assert (Hr : rq_url r <> response_url response)
        by (apply (Hbefore 0 r); [lia | reflexivity]).
      apply String.eqb_neq in Hr. rewrite Hr. f_equal.
      apply IH; [exact Hi | exact Hurl |].
      intros j req' Hj Hreq'. apply (Hbefore (S j) req'); [lia | exact Hreq'].
Qed.

Lemma find_corresponding_request_none response reqs :
  (forall req, In req reqs -> rq_url req <> response_url response) ->
  find_corresponding_request response reqs = reqs.
Proof.
  induction reqs as [|r reqs IH]; intros H; simpl; [reflexivity|].
  assert (Hr : rq_url r <> response_url response) by (apply H; left; reflexivity).
  apply String.eqb_neq in Hr. rewrite Hr. f_equal.
  apply IH. intros req Hin. apply H. right. exact Hin.
Qed.

Lemma find_corresponding_request_keys response reqs :
  map request_keys (find_corresponding_request response reqs) = map request_keys reqs.
Proof.
  induction reqs as [|r reqs IH]; simpl; [reflexivity|].
  destruct (String.eqb (rq_url r) (response_url response)); simpl.
  - reflexivity.
  - f_equal. exact IH.
Qed.

(** *** What the handlers do to the data and what they print *)

Lemma check_mime_type_data response d : data_of (check_mime_type response d) = d.
Proof.
  unfold check_mime_type.
  repeat match goal with |- context [if ?b then _ else _] => destruct b end; reflexivity.
Qed.

Lemma handle_response_data response d :
  data_of (handle_response response d)
  = {| console_logs := console_logs d;
       network_requests := find_corresponding_request response (network_requests d);
       errors := errors d; page_state := page_state d |}.
Proof.
  unfold handle_response, when, bind, get, put, print, ret, data_of.
  destruct (response_ok response); simpl; [reflexivity|].
  match goal with |- context [check_mime_type ?r ?x] =>
    pose proof (check_mime_type_data r x) as H;
    destruct (check_mime_type r x) as [[u d'] out] end.
  exact H.
Qed.

Lemma handle_response_printed response d :
  printed (handle_response response d)
  = if response_ok response then nil
    else FailedRequestLine (response_status response) (response_url response)
         :: StatusTextLine (response_status_text response)
         :: printed (check_mime_type response d).
Proof.
  unfold handle_response, when, bind, get, put, print, ret, printed.
  destruct (response_ok response); simpl; [reflexivity|].
  unfold check_mime_type.
  repeat match goal with |- context [if ?b then _ else _] => destruct b end; reflexivity.
Qed.

Lemma handle_console_data now msg d :
  data_of (handle_console now msg d)
  = {| console_logs := console_logs d ++
         {| ce_timestamp := now; ce_type := msg_type msg;
            ce_text := msg_text msg; ce_location := msg_location msg |} :: nil;
       network_requests := network_requests d;
       errors := errors d; page_state := page_state d |}.
Proof.
  unfold handle_console, when, bind, get, put, print, ret, data_of.
  destruct (String.eqb (msg_type msg) "error" || String.eqb (msg_type msg) "warning");
    destruct (msg_location msg); reflexivity.
Qed.

Lemma on_event_appends e d :
  console_logs d `prefix_of` console_logs (data_of (on_event e d)) /\
  errors d `prefix_of` errors (data_of (on_event e d)) /\
  map request_keys (network_requests d)
    `prefix_of` map request_keys (network_requests (data_of (on_event e d))).
Proof.
  destruct e as [now msg | now request | response | now error]; simpl.
  - rewrite handle_console_data. simpl.
    split; [apply prefix_app_r; reflexivity | split; reflexivity].
  - unfold handle_request, bind, get, put, print, data_of. simpl.
    split; [reflexivity | split; [reflexivity |]].
    rewrite map_app. apply prefix_app_r. reflexivity.
  - rewrite handle_response_data. simpl.
    rewrite find_corresponding_request_keys.
    split; [reflexivity | split; reflexivity].
  - unfold handle_page_error, bind, get, put, print, data_of. simpl.
    split; [reflexivity | split; [apply prefix_app_r; reflexivity | reflexivity]].
Qed.

Lemma on_events_cons_data e es d :
  data_of (on_events (e :: es) d) = data_of (on_events es (data_of (on_event e d))).
Proof.
  unfold on_events. simpl. unfold bind, data_of.
  destruct (on_event e d) as [[u d1] out1]. simpl.
  destruct (for_each es on_event d1) as [[u' d2] out2]. reflexivity.
Qed.

(** *** Computations that only read the data *)

Lemma computes_ret {A} (a : A) : computes (ret a) (fun _ => a).
Proof. intros d. exists nil. reflexivity. Qed.

Lemma computes_get : computes get (fun d => d).
Proof. intros d. exists nil. reflexivity. Qed.

Lemma computes_print l : computes (print l) (fun _ => tt).
Proof. intros d. exists (l :: nil). reflexivity. Qed.

Lemma computes_bind {A B} (m : M A) (k : A -> M B) f g :
  computes m f -> (forall a, computes (k a) (g a)) ->
  computes (bind m k) (fun d => g (f d) d).
Proof.
  intros Hm Hk d. unfold bind.
  destruct (Hm d) as [out1 ->]. destruct (Hk (f d) d) as [out2 ->].
  exists (out1 ++ out2). reflexivity.
Qed.

Lemma computes_unit (m : M unit) f : computes m f -> computes m (fun _ => tt).
Proof. intros H d. destruct (H d) as [out ->]. exists out. destruct (f d). reflexivity. Qed.

Lemma computes_when b (m : M unit) :
  computes m (fun _ => tt) -> computes (when b m) (fun _ => tt).
Proof. intros H. destruct b; simpl; [exact H | apply computes_ret]. Qed.

Lemma computes_for_each {A} (l : list A) (body : A -> M unit) :
  (forall x, computes (body x) (fun _ => tt)) ->
  computes (for_each l body) (fun _ => tt).
Proof.
  intros H. induction l as [|x l IH]; simpl.
  - apply computes_ret.
  - apply (computes_bind (body x) (fun _ => for_each l body)
             (fun _ => tt) (fun _ _ => tt)); [apply H | intros _; exact IH].
Qed.

Lemma computes_seq {B} (m : M unit) (k : M B) g :
  computes m (fun _ => tt) -> computes k g -> computes (bind m (fun _ => k)) g.
Proof.
  intros Hm Hk.
  apply (computes_bind m (fun _ => k) (fun _ => tt) (fun _ => g)); [exact Hm | intros _; exact Hk].
Qed.

Lemma computes_network_analysis_summary :
  computes network_analysis_summary failed_requests.
Proof.
  unfold network_analysis_summary.
  apply (computes_bind get _ (fun d => d) (fun d _ => failed_requests d));
    [apply computes_get | intros d].
  repeat (apply computes_seq; [try apply computes_print |]).
  - apply computes_when. apply computes_seq; [apply computes_print |].
    apply computes_for_each. intros req. destruct (rq_response req).
    + apply computes_seq; apply computes_print.
    + apply computes_ret.
  - apply computes_ret.
Qed.

Lemma computes_console_logs_summary : computes console_logs_summary error_logs.
Proof.
  unfold console_logs_summary.
  apply (computes_bind get _ (fun d => d) (fun d _ => error_logs d));
    [apply computes_get | intros d].
  repeat (apply computes_seq; [try apply computes_print |]).
  - apply computes_when. apply computes_seq; [apply computes_print |].
    apply computes_for_each. intros e.
    apply computes_seq; [apply computes_print |].
    destruct (ce_location e); [apply computes_print | apply computes_ret].
  - apply computes_ret.
Qed.

Lemma computes_final_analysis errs failed :
  computes (final_analysis errs failed)
    (fun d => {| critical_issues := critical_issues_of errs failed (page_state d);
                 warnings := nil; recommendations := nil |}).
Proof.
  unfold final_analysis.
  apply (computes_bind get _ (fun d => d)
           (fun d _ => {| critical_issues := critical_issues_of errs failed (page_state d);
                          warnings := nil; recommendations := nil |}));
    [apply computes_get | intros d].
  apply computes_seq; [apply computes_print |].
  apply computes_seq; [apply computes_for_each; intros i; apply computes_print |].
  apply computes_seq; [apply computes_when; apply computes_print |].
  apply computes_ret.
Qed.

Lemma computes_aggregate : computes aggregate (fun d => (d, summary_of d)).
Proof.
  intros d. unfold aggregate, bind.
  destruct (computes_network_analysis_summary d) as [out1 ->].
  destruct (computes_console_logs_summary d) as [out2 ->].
  destruct (computes_final_analysis (error_logs d) (failed_requests d) d) as [out3 ->].
  simpl. eexists. reflexivity.
Qed.

End DebugCredentialsFacts.

Module DCF := DebugCredentialsFacts.

(** ** Correlation of responses with requests *)

(** C2 as the claim words it fails: with two pending requests to one URL
    the handler gives the response to the older one, where the rule of
    the specification links the more recent one; and a further response to
    the same URL is written over the request that was already answered. *)
Lemma C2_counterexample :
  let after := DC.data_of (DC.handle_response Scenario.api_ok Scenario.two_pending) in
  DC.network_requests after
    = DC.update (Scenario.pending "t1" "/api/credentials") Scenario.api_ok
      :: Scenario.pending "t2" "/api/credentials" :: nil /\
  Spec.spec_correlate Scenario.api_ok (DC.network_requests Scenario.two_pending)
    = Scenario.pending "t1" "/api/credentials"
      :: DC.update (Scenario.pending "t2" "/api/credentials") Scenario.api_ok :: nil /\
  DC.network_requests after
    <> Spec.spec_correlate Scenario.api_ok (DC.network_requests Scenario.two_pending) /\
  DC.network_requests
    (DC.data_of (DC.handle_response Scenario.api_failed after))
    = DC.update (Scenario.pending "t1" "/api/credentials") Scenario.api_failed
      :: Scenario.pending "t2" "/api/credentials" :: nil.
Proof.
  cbv zeta. rewrite !DCF.handle_response_data.
  split; [reflexivity | split; [reflexivity | split; [| reflexivity]]].
  simpl. intros H. discriminate H.
Qed.

(** C2, amended.  A response is given to the earliest recorded request
    that has its URL, whether or not that request was answered before:
    its response keys are set (or overwritten) in place, and every other
    request is left as it is. *)
Theorem C2_first_request_with_url (response : DC.Response)
    (d : DC.debug_data_t) (i : nat) (req : DC.request_data) :
  DC.network_requests d !! i = Some req ->
  DC.rq_url req = DC.response_url response ->
  (forall j req', j < i -> DC.network_requests d !! j = Some req' ->
                  DC.rq_url req' <> DC.response_url response) ->
  DC.network_requests
    (DC.data_of (DC.handle_response response d))
  = <[i := DC.update req response]> (DC.network_requests d).
Proof.
  intros Hi Hurl Hbefore. rewrite DCF.handle_response_data. simpl.
  apply DCF.find_corresponding_request_first; assumption.
Qed.

(** The rule at the two pending requests of the counterexample: the
    first of them gets the response. *)
Lemma C2_witness :
  DC.network_requests
    (DC.data_of (DC.handle_response Scenario.api_ok Scenario.two_pending))
  = <[0 := DC.update (Scenario.pending "t1" "/api/credentials") Scenario.api_ok]>
      (DC.network_requests Scenario.two_pending).
Proof.
  apply (C2_first_request_with_url Scenario.api_ok Scenario.two_pending 0
           (Scenario.pending "t1" "/api/credentials")).
  - reflexivity.
  - reflexivity.
  - intros j req' Hj. lia.
Defined.

(** ** The MIME check *)

(** C3 as the claim words it fails: the script answered with status 200
    and an HTML content type has a script URL and a content type without
    the script media type, and the handler prints nothing for it. *)
Lemma C3_counterexample :
  PyStr.endswith ".js" (DC.response_url Scenario.app_js_as_html) = true /\
  PyStr.contains "javascript" (DC.content_type_of Scenario.app_js_as_html) = false /\
  DC.response_ok Scenario.app_js_as_html = true /\
  DC.printed
    (DC.handle_response Scenario.app_js_as_html Scenario.one_pending) = nil.
Proof. vm_compute. repeat split; reflexivity. Qed.

(** C3, amended.  The MIME check runs only for a response whose success
    flag is false: such a response with a script URL and a content type
    that lacks the script media type gets the MIME finding, and a
    response whose success flag is true gets no finding at all. *)
Theorem C3_mime_check_on_failed_response (response : DC.Response)
    (d : DC.debug_data_t) :
  (DC.response_ok response = true ->
   DC.printed (DC.handle_response response d) = nil) /\
  (DC.response_ok response = false ->
   PyStr.endswith ".js" (DC.response_url response) = true ->
   PyStr.contains "javascript" (DC.content_type_of response) = false ->
   In (DC.MimeJsLine (DC.content_type_of response))
      (DC.printed (DC.handle_response response d))).
Proof.
  rewrite DCF.handle_response_printed. split.
  - intros ->. reflexivity.
  - intros -> Hjs Hct. right. right.
    unfold DC.check_mime_type. rewrite Hjs, Hct. simpl. left. reflexivity.
Qed.

(** The two cases at the script of scenario D, answered with status 200
    and with status 404. *)
Lemma C3_witness :
  DC.printed
    (DC.handle_response Scenario.app_js_as_html Scenario.one_pending) = nil /\
  In (DC.MimeJsLine "text/html")
     (DC.printed
        (DC.handle_response Scenario.app_js_missing Scenario.one_pending)).
Proof.
  split.
  - apply (proj1 (C3_mime_check_on_failed_response Scenario.app_js_as_html Scenario.one_pending)).
    reflexivity.
  - apply (proj2 (C3_mime_check_on_failed_response Scenario.app_js_missing Scenario.one_pending));
      reflexivity.
Defined.

(** ** Recorded entries *)

(** C4 as the claim words it fails: when the response to a recorded
    request arrives, the recorded entry itself is changed, so the list of
    requests before the response is no prefix of the list after it. *)
Lemma C4_counterexample :
  let before := DC.network_requests Scenario.one_pending in
  let after := DC.network_requests
                 (DC.data_of
                    (DC.on_event
                       (DC.ResponseEvent Scenario.app_js_missing)
                       Scenario.one_pending)) in
  after !! 0 <> before !! 0 /\ ~ before `prefix_of` after.
Proof.
  cbv zeta. simpl DC.on_event.
  rewrite DCF.handle_response_data. simpl. split.
  - intros H. discriminate H.
  - intros [k H]. discriminate H.
Qed.

(** C4, amended.  Over any sequence of events the console log and the
    error log only grow at the end, and so does the list of requests as
    far as the keys written when a request was recorded are concerned
    (time stamp, method, URL, headers, resource kind); the response keys
    of a recorded request are the one thing that is edited in place. *)
Theorem C4_logs_append_only (es : list DC.event)
    (d : DC.debug_data_t) :
  DC.console_logs d
    `prefix_of` DC.console_logs
                  (DC.data_of (DC.on_events es d)) /\
  DC.errors d
    `prefix_of` DC.errors
                  (DC.data_of (DC.on_events es d)) /\
  map DC.request_keys (DC.network_requests d)
    `prefix_of` map DC.request_keys
                  (DC.network_requests
                     (DC.data_of (DC.on_events es d))).
Proof.
  revert d. induction es as [|e es IH]; intros d.
  - split; [reflexivity | split; reflexivity].
  - rewrite DCF.on_events_cons_data.
    destruct (DCF.on_event_appends e d) as (Hc & He & Hn).
    destruct (IH (DC.data_of (DC.on_event e d))) as (Hc' & He' & Hn').
    split; [etrans; eassumption | split; etrans; eassumption].
Qed.

(** ** Responses without a request *)

(** C6 as the claim words it fails: a successful response for which no
    request was recorded changes nothing and prints nothing, and the
    report made afterwards is the report that would have been made
    without it. *)
Lemma C6_counterexample :
  DC.handle_response Scenario.api_ok DC.initial_debug_data
    = (tt, DC.initial_debug_data, nil) /\
  DC.aggregate
    (DC.data_of
       (DC.handle_response Scenario.api_ok DC.initial_debug_data))
    = DC.aggregate DC.initial_debug_data.
Proof. split; reflexivity. Qed.

(** C6, amended.  For a response whose URL no recorded request has, the
    handler raises nothing and records nothing: the data stay as they
    are, so the report does not show the response.  When its success flag
    is true nothing is printed either; when it is false the response is
    printed as a failed request. *)
Theorem C6_orphan_response_not_recorded (response : DC.Response)
    (d : DC.debug_data_t) :
  (forall req, In req (DC.network_requests d) ->
               DC.rq_url req <> DC.response_url response) ->
  DC.data_of (DC.handle_response response d) = d /\
  DC.printed (DC.handle_response response d)
  = if DC.response_ok response then nil
    else DC.FailedRequestLine (DC.response_status response)
           (DC.response_url response)
         :: DC.StatusTextLine (DC.response_status_text response)
         :: DC.printed (DC.check_mime_type response d).
Proof.
  intros Horphan. split.
  - rewrite DCF.handle_response_data.
    rewrite (DCF.find_corresponding_request_none _ _ Horphan).
    destruct d; reflexivity.
  - apply DCF.handle_response_printed.
Qed.

(** A failed response to a URL that was never requested, while another
    request is pending. *)
Lemma C6_witness :
  DC.data_of
    (DC.handle_response Scenario.api_failed Scenario.one_pending)
  = Scenario.one_pending /\
  DC.printed
    (DC.handle_response Scenario.api_failed Scenario.one_pending)
  = DC.FailedRequestLine 500 "/api/credentials"
    :: DC.StatusTextLine "Internal Server Error" :: nil.
Proof.
  apply (C6_orphan_response_not_recorded Scenario.api_failed Scenario.one_pending).
  intros req [<- | []]. simpl. intros H. discriminate H.
Defined.

(** ** Failed requests *)

(** C8.  The requests counted as failed are at most as many as the
    requests that carry a response, and every request counted as failed
    carries a response status. *)
Theorem C8_failed_requests_have_a_response (d : DC.debug_data_t) :
  length (DC.failed_requests d)
    <= length (List.filter DC.has_status (DC.network_requests d)) /\
  Forall (fun req => is_Some (DC.rq_response req))
         (DC.failed_requests d).
Proof.
  unfold DC.failed_requests.
  induction (DC.network_requests d) as [|req reqs [IHlen IHall]].
  - split; [reflexivity | constructor].
  - cbn [List.filter].
    destruct (DC.has_status req) eqn:Hs; cbn [andb].
    + destruct (negb (DC.get_ok req)); cbn [length].
      * split; [lia | constructor; [| exact IHall]].
        unfold DC.has_status in Hs.
        destruct (DC.rq_response req); [eexists; reflexivity | discriminate Hs].
      * split; [lia | exact IHall].
    + split; [exact IHlen | exact IHall].
Qed.

(** ** The aggregation *)

(** C9 as the claim words it fails in one point: the aggregation does
    write to standard output.  On the data of a session without any
    event it prints the three request counts, the three console counts,
    the heading of the critical issues and the line that says there are
    none. *)
Lemma C9_counterexample :
  DC.printed (DC.aggregate DC.initial_debug_data)
  = DC.TotalRequestsLine 0 :: DC.SuccessfulRequestsLine 0 :: DC.FailedRequestsLine 0
    :: DC.TotalConsoleLine 0 :: DC.ErrorsLine 0 :: DC.WarningsLine 0
    :: DC.CriticalIssuesHeader :: DC.NoCriticalIssuesLine :: nil /\
  DC.printed (DC.aggregate DC.initial_debug_data) <> nil.
Proof. split; [reflexivity | intros H; discriminate H]. Qed.

(** C9, amended.  The aggregation leaves the recorded data as it found
    them, its report is the data together with the summary computed from
    them alone, and running it again on the data it leaves gives the same
    report and prints the same lines. *)
Theorem C9_aggregate_twice (d : DC.debug_data_t) :
  DC.data_of (DC.aggregate d) = d /\
  DC.value_of (DC.aggregate d)
    = (d, DC.summary_of d) /\
  DC.aggregate (DC.data_of (DC.aggregate d))
    = DC.aggregate d.
Proof.
  destruct (DCF.computes_aggregate d) as [out H].
  rewrite H. simpl. split; [reflexivity | split; [reflexivity | exact H]].
Qed.

(** ** The console event of scenario A *)

(** C5.  A console event of level error with the text
    [Uncaught SyntaxError: Unexpected token] is a genuine error and no
    suppressed one for the wallet analysis, whose count of genuine errors
    grows by one with it; once it is recorded, the critical issues of the
    credentials report start with the entry that counts the console
    errors; and of the two pattern tables of the final test it is the
    table of actual errors that matches the text, by its uncaught
    pattern. *)
Theorem C5_uncaught_syntax_error_is_genuine (now : string) (location : option string)
    (c : DW.collected) (n : nat) (d : DC.debug_data_t) :
  let msg := {| DW.cm_type := "error"; DW.cm_text := Scenario.uncaught_text;
                DW.cm_location := location; DW.cm_timestamp := now |} in
  let event := {| DC.msg_type := "error"; DC.msg_text := Scenario.uncaught_text;
                  DC.msg_location := location |} in
  DW.is_genuine msg = true /\
  DW.is_suppressed msg = false /\
  DW.genuine_error_count
    (DW.analyze_wallet_errors (DW.handle_console now "error" Scenario.uncaught_text location c) n)
    = S (DW.genuine_error_count (DW.analyze_wallet_errors c n)) /\
  DC.critical_issues
    (snd (DC.value_of (DC.aggregate (DC.data_of (DC.handle_console now event d)))))
    !! 0 = Some (PyStr.of_nat (S (length (DC.error_logs d))) +:+ " console errors detected") /\
  FinalTest.count_patterns FinalTest.actual_error_patterns Scenario.uncaught_text 0 nil
    = Re.Ok (1, "Uncaught SyntaxError" :: nil) /\
  FinalTest.count_patterns (firstn 5 FinalTest.error_handling_patterns)
    Scenario.uncaught_text 0 nil = Re.Ok (0, nil).
Proof.
  cbv zeta. split; [reflexivity | split; [reflexivity | split; [| split; [| split]]]].
  - unfold DW.analyze_wallet_errors, DW.genuine_error_count, DW.genuine_errors,
      DW.handle_console. cbn [DW.console_messages].
    rewrite List.filter_app, length_app. simpl. lia.
  - destruct (DCF.computes_aggregate (DC.data_of (DC.handle_console now
        {| DC.msg_type := "error"; DC.msg_text := Scenario.uncaught_text;
           DC.msg_location := location |} d))) as [out ->].
    rewrite DCF.handle_console_data.
    unfold DC.value_of, DC.summary_of, DC.critical_issues_of, DC.error_logs.
    cbn [fst snd DC.critical_issues DC.console_logs DC.msg_type DC.msg_text].
    rewrite List.filter_app, length_app. cbn [List.filter DC.ce_type].
    replace (String.eqb "error" "error") with true by reflexivity.
    cbn [length]. rewrite Nat.add_1_r. reflexivity.
  - vm_compute. reflexivity.
  - vm_compute. reflexivity.
Qed.

(** ** Failed script fetches in the advanced tester *)

Module AdvancedFacts.
Import PyStr Advanced.

(** The Node script records every rejected fetch and goes on. *)
Lemma js_analyze_scripts_rejected fetchScript script rest call totalErrors message :
  endswith ".js" script = true ->
  fetchScript call script = Rejected message ->
  js_analyze_scripts fetchScript (script :: rest) call totalErrors
  = js_analyze_scripts fetchScript rest (S call)
      (totalErrors ++ ("Script load error: " +:+ script) :: nil).
Proof. intros Hjs Hf. simpl. rewrite Hjs, Hf. reflexivity. Qed.

(** The curl loop records a fetch that times out and goes on. *)
Lemma analyze_scripts_timeout base_url run script rest call total_errors analyzed :
  endswith ".js" script = true ->
  run call ("curl" :: "-s" :: script_url_of base_url script :: nil) = TimeoutExpired ->
  analyze_scripts base_url run (script :: rest) call total_errors analyzed
  = analyze_scripts base_url run rest (S call)
      (total_errors ++ ("Script timeout: " +:+ script) :: nil) analyzed.
Proof. intros Hjs Hr. simpl. rewrite Hjs, Hr. reflexivity. Qed.

(** The curl loop goes on after a fetch that ends with a non-zero exit
    status, and records nothing for it. *)
Lemma analyze_scripts_nonzero base_url run script rest call total_errors analyzed
    returncode stdout stderr :
  endswith ".js" script = true ->
  run call ("curl" :: "-s" :: script_url_of base_url script :: nil)
    = Completed returncode stdout stderr ->
  returncode <> 0%Z ->
  analyze_scripts base_url run (script :: rest) call total_errors analyzed
  = analyze_scripts base_url run rest (S call) total_errors analyzed.
Proof.
  intros Hjs Hr Hne. simpl. rewrite Hjs, Hr.
  apply Z.eqb_neq in Hne. rewrite Hne. reflexivity.
Qed.

(** Both producers of a simulation report keep the first ten errors. *)
Lemma curl_report_error_details pl html scripts errs n :
  error_details (curl_report pl html scripts errs n) = Some (firstn 10 errs).
Proof. reflexivity. Qed.

Lemma js_report_error_details now html scripts errs :
  error_details (js_report now html scripts errs) = Some (firstn 10 errs).
Proof. reflexivity. Qed.

(** The verdict reads nothing of the simulation but [error_details]. *)
Lemma verdict_from_error_details sim sim' button button' :
  error_details sim = error_details sim' ->
  verdict (run_comprehensive_test sim button) = verdict (run_comprehensive_test sim' button').
Proof.
  intros H. unfold verdict, run_comprehensive_test. simpl. rewrite H. reflexivity.
Qed.

Lemma firstn_10_app (first_ten later : list string) :
  length first_ten = 10 -> firstn 10 (first_ten ++ later) = first_ten.
Proof.
  intros H. rewrite <- H. rewrite firstn_app, Nat.sub_diag, firstn_all. simpl.
  apply app_nil_r.
Qed.

(** The curl simulation returns an error dictionary without
    [error_details], or the report of the errors it collected. *)
Lemma run_alternative_simulation_error_details base_url run :
  error_details (run_alternative_simulation base_url run) = None \/
  exists errs, error_details (run_alternative_simulation base_url run)
               = Some (firstn 10 errs).
Proof.
  unfold run_alternative_simulation.
  destruct (run 0 _) as [rc out err | | e]; [| left; reflexivity | left; reflexivity].
  destruct (run 1 _) as [rc1 html err1 | | e]; [| left; reflexivity | left; reflexivity].
  destruct (rc1 =? 0)%Z; [| left; reflexivity].
  destruct (Re.findall script_pattern html Re.no_flags) as [scripts | c n | n];
    [| left; reflexivity | left; reflexivity].
  destruct (analyze_scripts base_url run scripts 2 nil 0) as [errs analyzed].
  right. exists errs. reflexivity.
Qed.

End AdvancedFacts.

(** C7 at the failing input: the page loads and names one script, and the
    fetch of that script ends with exit status 7.  The curl simulation
    reports no error at all for it (and no script analysed, out of one),
    whereas it does record a fetch that times out, and the Node
    simulation records the failed fetch as a script load error. *)
Theorem C7_failed_fetch_dropped_by_curl_simulation :
  Advanced.run_alternative_simulation Scenario.base_url
    (Scenario.page_then Scenario.connection_failed)
  = Advanced.curl_report true Scenario.page_html ("/assets/app.js" :: nil) nil 0 /\
  Advanced.error_details
    (Advanced.run_alternative_simulation Scenario.base_url
       (Scenario.page_then Subprocess.TimeoutExpired))
  = Some ("Script timeout: /assets/app.js" :: nil) /\
  Advanced.js_analyze_scripts Scenario.rejecting ("/assets/app.js" :: nil) 0 nil
  = "Script load error: /assets/app.js" :: nil.
Proof. vm_compute. repeat split; reflexivity. Qed.

(** C10.  The lists of syntax errors and of node errors and the
    error-suppression flag of the comprehensive test are computed from
    the first ten collected errors only: whatever was collected after
    the tenth error, the three results are those obtained from the first
    ten alone, for the report of the curl simulation and for the report
    of the Node simulation. *)
Theorem C10_verdict_from_first_ten (first_ten later : list string)
    (page_loads : bool) (now html : string) (scripts : list string) (analyzed : nat)
    (button : Advanced.button_test_result) :
  length first_ten = 10 ->
  Advanced.verdict
    (Advanced.run_comprehensive_test
       (Advanced.curl_report page_loads html scripts (first_ten ++ later) analyzed) button)
  = Advanced.verdict
      (Advanced.run_comprehensive_test
         (Advanced.curl_report page_loads html scripts first_ten analyzed) button) /\
  Advanced.verdict
    (Advanced.run_comprehensive_test
       (Advanced.js_report now html scripts (first_ten ++ later)) button)
  = Advanced.verdict
      (Advanced.run_comprehensive_test
         (Advanced.js_report now html scripts first_ten) button).
Proof.
  intros Hlen. split; apply AdvancedFacts.verdict_from_error_details.
  - rewrite !AdvancedFacts.curl_report_error_details.
    rewrite (AdvancedFacts.firstn_10_app _ _ Hlen).
    rewrite <- Hlen at 1. rewrite firstn_all. reflexivity.
  - rewrite !AdvancedFacts.js_report_error_details.
    rewrite (AdvancedFacts.firstn_10_app _ _ Hlen).
    rewrite <- Hlen at 1. rewrite firstn_all. reflexivity.
Qed.

(** Ten errors of no listed kind followed by a node error and a syntax
    error: the verdict is that of the ten. *)
Lemma C10_witness :
  Advanced.verdict
    (Advanced.run_comprehensive_test
       (Advanced.curl_report true Scenario.page_html ("/assets/app.js" :: nil)
          (Scenario.ten_type_errors ++ Scenario.eleventh) 1)
       {| Advanced.likely_functional := Some true |})
  = Advanced.verdict
      (Advanced.run_comprehensive_test
         (Advanced.curl_report true Scenario.page_html ("/assets/app.js" :: nil)
            Scenario.ten_type_errors 1)
         {| Advanced.likely_functional := Some true |}) /\
  Advanced.verdict
    (Advanced.run_comprehensive_test
       (Advanced.js_report "t" Scenario.page_html ("/assets/app.js" :: nil)
          (Scenario.ten_type_errors ++ Scenario.eleventh))
       {| Advanced.likely_functional := Some true |})
  = Advanced.verdict
      (Advanced.run_comprehensive_test
         (Advanced.js_report "t" Scenario.page_html ("/assets/app.js" :: nil)
            Scenario.ten_type_errors)
         {| Advanced.likely_functional := Some true |}).
Proof.
  apply (C10_verdict_from_first_ten Scenario.ten_type_errors Scenario.eleventh
           true "t" Scenario.page_html ("/assets/app.js" :: nil) 1
           {| Advanced.likely_functional := Some true |}).
  reflexivity.
Defined.

(* ===================================================================== *)
(** * Further properties of the scripts                                   *)
(* ===================================================================== *)

(** ** Recorder sessions ([debug_credentials.py]) *)

Module SessionFacts.
Import PyStr DebugCredentials Session.

Lemma find_corresponding_request_length response reqs :
  length (find_corresponding_request response reqs) = length reqs.
Proof.
  induction reqs as [|r reqs IH]; simpl; [reflexivity|].
  destruct (String.eqb (rq_url r) (response_url response)); simpl; congruence.
Qed.

Lemma handle_request_data now request d :
  data_of (handle_request now request d)
  = {| console_logs := console_logs d;
       network_requests := network_requests d ++ entry_of now request :: nil;
       errors := errors d; page_state := page_state d |}.
Proof. reflexivity. Qed.

Lemma handle_page_error_data now error d :
  data_of (handle_page_error now error d)
  = {| console_logs := console_logs d;
       network_requests := network_requests d;
       errors := errors d ++
         {| er_timestamp := now; er_message := error; er_type := "page_error" |} :: nil;
       page_state := page_state d |}.
Proof. reflexivity. Qed.

Lemma on_events_nil_data d : data_of (on_events nil d) = d.
Proof. reflexivity. Qed.

Lemma on_events_cons_printed e es d :
  printed (on_events (e :: es) d)
  = printed (on_event e d) ++ printed (on_events es (data_of (on_event e d))).
Proof.
  unfold on_events. simpl. unfold bind, printed, data_of.
  destruct (on_event e d) as [[u d1] out1]. simpl.
  destruct (for_each es on_event d1) as [[u' d2] out2]. reflexivity.
Qed.

Lemma update_fields req response :
  rq_response (update req response) = Some (fields_of response).
Proof. reflexivity. Qed.

Lemma update_update req r1 r2 : update (update req r1) r2 = update req r2.
Proof. reflexivity. Qed.

Lemma update_url req response : rq_url (update req response) = rq_url req.
Proof. reflexivity. Qed.

Lemma find_twice_same_url r1 r2 reqs :
  response_url r1 = response_url r2 ->
  find_corresponding_request r2 (find_corresponding_request r1 reqs)
  = find_corresponding_request r2 reqs.
Proof.
  intros Hurl. induction reqs as [|r reqs IH]; simpl; [reflexivity|].
  rewrite Hurl.
  destruct (String.eqb (rq_url r) (response_url r2)) eqn:H2; simpl; rewrite H2.
  - reflexivity.
  - f_equal. exact IH.
Qed.

Lemma find_commute r1 r2 reqs :
  response_url r1 <> response_url r2 ->
  find_corresponding_request r1 (find_corresponding_request r2 reqs)
  = find_corresponding_request r2 (find_corresponding_request r1 reqs).
Proof.
  intros Hne. induction reqs as [|r reqs IH]; simpl; [reflexivity|].
  destruct (String.eqb (rq_url r) (response_url r2)) eqn:H2;
    destruct (String.eqb (rq_url r) (response_url r1)) eqn:H1; simpl;
    rewrite ?H1, ?H2; simpl.
  - apply String.eqb_eq in H1, H2. congruence.
  - reflexivity.
  - reflexivity.
  - f_equal. exact IH.
Qed.

(** Entries after a response: each is an old entry, or an old entry
    updated with this response, whose URL it has. *)
Lemma find_corresponding_request_entries response reqs :
  Forall (fun req' => In req' reqs \/
                      exists req, In req reqs /\ rq_url req = response_url response /\
                                  req' = update req response)
         (find_corresponding_request response reqs).
Proof.
  induction reqs as [|r reqs IH]; simpl; [constructor|].
  destruct (String.eqb (rq_url r) (response_url response)) eqn:H.
  - constructor.
    + right. exists r. apply String.eqb_eq in H. auto.
    + apply Forall_forall. intros x Hx. left. right. apply list_elem_of_In. exact Hx.
  - constructor; [left; left; reflexivity |].
    eapply Forall_impl; [exact IH |]. simpl.
    intros x [Hx | (req & Hin & Hurl & ->)]; [left; right; exact Hx |].
    right. exists req. auto.
Qed.

End SessionFacts.

Module SF := SessionFacts.

(** Over any sequence of events each log gains exactly one entry per
    event of its channel: the console log one per console message, the
    request log one per request, the error log one per page error.  A
    response adds no entry and removes none. *)
Theorem session_entry_counts (es : list DC.event) (d : DC.debug_data_t) :
  length (DC.console_logs (DC.data_of (DC.on_events es d)))
    = length (DC.console_logs d) + length (List.filter Session.is_console es) /\
  length (DC.network_requests (DC.data_of (DC.on_events es d)))
    = length (DC.network_requests d) + length (List.filter Session.is_request es) /\
  length (DC.errors (DC.data_of (DC.on_events es d)))
    = length (DC.errors d) + length (List.filter Session.is_page_error es).
Proof.
  revert d. induction es as [|e es IH]; intros d.
  - rewrite SF.on_events_nil_data. simpl. lia.
  - rewrite DCF.on_events_cons_data.
    destruct (IH (DC.data_of (DC.on_event e d))) as (Hc & Hn & He).
    rewrite Hc, Hn, He. clear IH Hc Hn He.
    destruct e as [now msg | now request | response | now error]; cbn [DC.on_event].
    + rewrite DCF.handle_console_data. simpl. rewrite length_app. simpl. lia.
    + rewrite SF.handle_request_data. simpl. rewrite length_app. simpl. lia.
    + rewrite DCF.handle_response_data. simpl.
      rewrite SF.find_corresponding_request_length. lia.
    + rewrite SF.handle_page_error_data. simpl. rewrite length_app. simpl. lia.
Qed.

(** Of two responses to one URL the later one wins: after both, the
    recorded data are what they would be had only the later one arrived. *)
Theorem later_response_overwrites (r1 r2 : DC.Response) (d : DC.debug_data_t) :
  DC.response_url r1 = DC.response_url r2 ->
  DC.data_of (DC.handle_response r2 (DC.data_of (DC.handle_response r1 d)))
  = DC.data_of (DC.handle_response r2 d).
Proof.
  intros Hurl. rewrite !DCF.handle_response_data. simpl.
  rewrite (SF.find_twice_same_url _ _ _ Hurl). reflexivity.
Qed.

(** The request of the counterexample to C2, answered first with status
    200 and then with status 500. *)
Lemma later_response_overwrites_witness :
  DC.data_of (DC.handle_response Scenario.api_failed
                (DC.data_of (DC.handle_response Scenario.api_ok Scenario.two_pending)))
  = DC.data_of (DC.handle_response Scenario.api_failed Scenario.two_pending).
Proof.
  apply (later_response_overwrites Scenario.api_ok Scenario.api_failed Scenario.two_pending).
  reflexivity.
Defined.

(** Responses to different URLs can arrive in either order: the recorded
    data are the same. *)
Theorem responses_to_different_urls_commute (r1 r2 : DC.Response) (d : DC.debug_data_t) :
  DC.response_url r1 <> DC.response_url r2 ->
  DC.data_of (DC.handle_response r1 (DC.data_of (DC.handle_response r2 d)))
  = DC.data_of (DC.handle_response r2 (DC.data_of (DC.handle_response r1 d))).
Proof.
  intros Hne. rewrite !DCF.handle_response_data. simpl.
  rewrite (SF.find_commute _ _ _ Hne). reflexivity.
Qed.

Lemma responses_to_different_urls_commute_witness :
  DC.data_of (DC.handle_response Scenario.api_ok
                (DC.data_of (DC.handle_response Scenario.app_js_missing Scenario.one_pending)))
  = DC.data_of (DC.handle_response Scenario.app_js_missing
                  (DC.data_of (DC.handle_response Scenario.api_ok Scenario.one_pending))).
Proof.
  apply (responses_to_different_urls_commute Scenario.api_ok Scenario.app_js_missing
           Scenario.one_pending).
  intros H. discriminate H.
Defined.

(** The recorded requests fall into three groups that do not overlap:
    failed, successful and without a response.  The three counts of the
    network summary add up to the total, and no failed request is counted
    as successful. *)
Theorem requests_partition (d : DC.debug_data_t) :
  length (DC.failed_requests d) + length (DC.successful_requests d)
    + length (Session.pending_requests d)
  = length (DC.network_requests d) /\
  List.filter (fun req => DC.has_status req && DC.get_ok req) (DC.failed_requests d) = nil.
Proof.
  unfold DC.failed_requests, DC.successful_requests, Session.pending_requests.
  induction (DC.network_requests d) as [|req reqs [IHlen IHdis]].
  - split; reflexivity.
  - cbn [List.filter].
    destruct (DC.has_status req) eqn:Hs; destruct (DC.get_ok req) eqn:Hok;
      cbn [andb negb length List.filter]; rewrite ?Hs, ?Hok; cbn [andb negb];
      (split; [lia | exact IHdis]).
Qed.

(** In a session that starts with empty data, a request carries a
    response only if a response to its URL has arrived, and the response
    keys it carries are those of such a response. *)
Theorem answered_requests_have_a_response (es : list DC.event) :
  Forall (fun req =>
            match DC.rq_response req with
            | None => True
            | Some f => exists r, In r (Session.responses_of es) /\
                                  DC.response_url r = DC.rq_url req /\
                                  f = Session.fields_of r
            end)
         (DC.network_requests (DC.data_of (DC.on_events es DC.initial_debug_data))).
Proof.
  assert (Hgen : forall es rs d,
    Forall (fun req =>
              match DC.rq_response req with
              | None => True
              | Some f => exists r, In r rs /\ DC.response_url r = DC.rq_url req /\
                                    f = Session.fields_of r
              end) (DC.network_requests d) ->
    Forall (fun req =>
              match DC.rq_response req with
              | None => True
              | Some f => exists r, In r (rs ++ Session.responses_of es) /\
                                    DC.response_url r = DC.rq_url req /\
                                    f = Session.fields_of r
              end) (DC.network_requests (DC.data_of (DC.on_events es d)))).
  { clear es. induction es as [|e es IH]; intros rs d Hd.
    - rewrite SF.on_events_nil_data. simpl. rewrite app_nil_r. exact Hd.
    - rewrite DCF.on_events_cons_data.
      destruct e as [now msg | now request | response | now error]; cbn [DC.on_event].
      + apply (IH rs). rewrite DCF.handle_console_data. exact Hd.
      + apply (IH rs). rewrite SF.handle_request_data. simpl.
        apply Forall_app. split; [exact Hd | constructor; [exact I | constructor]].
      + replace (rs ++ Session.responses_of (DC.ResponseEvent response :: es))
          with ((rs ++ response :: nil) ++ Session.responses_of es)
          by (rewrite <- app_assoc; reflexivity).
        apply IH. rewrite DCF.handle_response_data. simpl.
        pose proof (SF.find_corresponding_request_entries response (DC.network_requests d)) as He.
        rewrite Forall_forall in Hd. rewrite Forall_forall in He. apply Forall_forall.
        intros x Hx. destruct (He x Hx) as [Hold | (req & Hin & Hurl & ->)].
        * apply list_elem_of_In in Hold. specialize (Hd x Hold).
          destruct (DC.rq_response x) as [f|]; [| exact I].
          destruct Hd as (r & Hr & Hu & Hf). exists r.
          split; [apply in_or_app; left; exact Hr | split; assumption].
        * simpl. exists response.
          split; [apply in_or_app; right; left; reflexivity | split; [symmetry; exact Hurl | reflexivity]].
      + apply (IH rs). rewrite SF.handle_page_error_data. exact Hd. }
  apply (Hgen es nil DC.initial_debug_data). constructor.
Qed.


(** A request whose URL was not requested before, followed by a response
    to it whose success flag is false: the failed requests grow by
    exactly this request, linked to the response. *)
Theorem failed_response_to_new_request (now : string) (request : DC.Request)
    (response : DC.Response) (d : DC.debug_data_t) :
  DC.request_url request = DC.response_url response ->
  (forall req, In req (DC.network_requests d) -> DC.rq_url req <> DC.response_url response) ->
  DC.response_ok response = false ->
  DC.failed_requests
    (DC.data_of (DC.handle_response response (DC.data_of (DC.handle_request now request d))))
  = DC.failed_requests d ++ DC.update (Session.entry_of now request) response :: nil.
Proof.
  intros Hurl Hnew Hok.
  rewrite DCF.handle_response_data, SF.handle_request_data.
  unfold DC.failed_requests. cbn [DC.network_requests].
  assert (Hfind : forall reqs,
    (forall req, In req reqs -> DC.rq_url req <> DC.response_url response) ->
    DC.find_corresponding_request response (reqs ++ Session.entry_of now request :: nil)
    = reqs ++ DC.update (Session.entry_of now request) response :: nil).
  { induction reqs as [|r reqs IH]; intros H; simpl.
    - rewrite Hurl, String.eqb_refl. reflexivity.
    - assert (Hr : DC.rq_url r <> DC.response_url response) by (apply H; left; reflexivity).
      apply String.eqb_neq in Hr. rewrite Hr. f_equal. apply IH.
      intros req Hin. apply H. right. exact Hin. }
  rewrite (Hfind _ Hnew), List.filter_app. f_equal.
  cbn. rewrite Hok. reflexivity.
Qed.

(** Scenario C: the script is requested in an empty session and answered
    with status 404. *)
Lemma failed_response_to_new_request_witness :
  DC.failed_requests
    (DC.data_of (DC.handle_response Scenario.app_js_missing
                   (DC.data_of (DC.handle_request "t1" (Scenario.get_request "/assets/app.js")
                                  DC.initial_debug_data))))
  = DC.failed_requests DC.initial_debug_data
    ++ DC.update (Session.entry_of "t1" (Scenario.get_request "/assets/app.js"))
         Scenario.app_js_missing :: nil.
Proof.
  apply (failed_response_to_new_request "t1" (Scenario.get_request "/assets/app.js")
           Scenario.app_js_missing DC.initial_debug_data).
  - reflexivity.
  - intros req [].
  - reflexivity.
Defined.

(** Over any sequence of events, the console lines that are printed as
    the events arrive are those of the console messages of level error
    or warning, one each and in their order; no other message and no
    other event is echoed as a console line. *)
Theorem console_messages_echoed (es : list DC.event) (d : DC.debug_data_t) :
  List.filter Session.is_console_line (DC.printed (DC.on_events es d))
  = flat_map Session.echo_of es.
Proof.
  revert d. induction es as [|e es IH]; intros d; [reflexivity|].
  rewrite SF.on_events_cons_printed, List.filter_app, IH. cbn [flat_map]. f_equal.
  destruct e as [now msg | now request | response | now error]; cbn [DC.on_event Session.echo_of].
  - unfold DC.handle_console, DC.when, DC.bind, DC.get, DC.put, DC.print, DC.ret, DC.printed.
    destruct (String.eqb (DC.msg_type msg) "error" || String.eqb (DC.msg_type msg) "warning");
      destruct (DC.msg_location msg); reflexivity.
  - reflexivity.
  - rewrite DCF.handle_response_printed.
    destruct (DC.response_ok response); [reflexivity|].
    unfold DC.check_mime_type.
    repeat match goal with |- context [if ?b then _ else _] => destruct b end; reflexivity.
  - reflexivity.
Qed.

(** ** String facts *)

Module PyStrFacts.
Import PyStr.

Lemma append_cons (x : ascii) (a b : string) : String x a +:+ b = String x (a +:+ b).
Proof. reflexivity. Qed.

Lemma startswith_spec p s : startswith p s = true <-> exists t, s = p +:+ t.
Proof.
  revert s. induction p as [|a p IH]; intros s; simpl.
  - split; [intros _; exists s; reflexivity | reflexivity].
  - destruct s as [|b s]; simpl.
    + split; [discriminate | intros [t H]; discriminate H].
    + rewrite andb_true_iff, IH. split.
      * intros [Hab [t ->]]. apply Ascii.eqb_eq in Hab. subst. exists t. reflexivity.
      * intros [t H]. injection H as -> ->. split; [apply Ascii.eqb_refl | exists t; reflexivity].
Qed.

Lemma contains_spec sub s :
  contains sub s = true <-> exists a b, s = a +:+ sub +:+ b.
Proof.
  induction s as [|c s IH].
  - cbn [contains]. rewrite orb_false_r, startswith_spec. split.
    + intros [t H]. exists EmptyString, t. exact H.
    + intros ([|a0 a] & b & H); [exists b; exact H | discriminate H].
  - cbn [contains]. rewrite orb_true_iff, startswith_spec, IH. split.
    + intros [[t H] | (a & b & H)].
      * exists EmptyString, t. exact H.
      * exists (String c a), b. rewrite append_cons, H. reflexivity.
    + intros ([|a0 a] & b & H).
      * left. exists b. exact H.
      * right. rewrite append_cons in H. injection H as -> ->. exists a, b. reflexivity.
Qed.

Lemma append_assoc (a b c : string) : (a +:+ b) +:+ c = a +:+ b +:+ c.
Proof.
  induction a as [|x a IH]; [reflexivity|].
  rewrite !append_cons. f_equal. exact IH.
Qed.

Lemma append_nil_r (a : string) : a +:+ EmptyString = a.
Proof.
  induction a as [|x a IH]; [reflexivity|].
  rewrite append_cons. f_equal. exact IH.
Qed.

Lemma length_append (a b : string) :
  String.length (a +:+ b) = String.length a + String.length b.
Proof.
  induction a as [|x a IH]; [reflexivity|].
  rewrite append_cons. simpl. f_equal. exact IH.
Qed.

Lemma contains_false_tail sub c s :
  contains sub (String c s) = false -> startswith sub (String c s) = false /\ contains sub s = false.
Proof. cbn [contains]. intros H. apply orb_false_iff in H. exact H. Qed.


Lemma upper_append a b : upper (a +:+ b) = upper a +:+ upper b.
Proof.
  induction a as [|x a IH]; [reflexivity|].
  rewrite append_cons. simpl. rewrite append_cons. f_equal. exact IH.
Qed.


Lemma lower_lower_char c : lower_char (lower_char c) = lower_char c.
Proof. destruct c as [[] [] [] [] [] [] [] []]; reflexivity. Qed.


Lemma lower_lower s : lower (lower s) = lower s.
Proof. induction s as [|c s IH]; simpl; [reflexivity | rewrite lower_lower_char; f_equal; exact IH]. Qed.



Lemma take_prefix n s : exists t, s = take n s +:+ t.
Proof.
  revert s. induction n as [|n IH]; intros s.
  - exists s. destruct s; reflexivity.
  - destruct s as [|c s]; [exists EmptyString; reflexivity|].
    destruct (IH s) as [t Ht]. exists t. simpl. rewrite append_cons, <- Ht. reflexivity.
Qed.

End PyStrFacts.

(** ** The wallet analysis ([debug_wallet_errors.py]) *)

Module WalletFacts.
Import PyStr DebugWalletErrors.

Lemma on_events_app es es' c : on_events (es ++ es') c = on_events es' (on_events es c).
Proof. unfold on_events. apply fold_left_app. Qed.

Lemma on_event_collects e c :
  console_messages (on_event e c) = console_messages c ++ message_of e /\
  js_errors (on_event e c) = js_errors c ++ js_error_of e /\
  network_failures (on_event e c) = network_failures c ++ failure_of e.
Proof.
  destruct e as [now type text location | now error | now url status status_text [|]];
    simpl; rewrite ?app_nil_r; auto.
Qed.

Lemma genuine_is_error msg : is_genuine msg = true -> is_error msg = true.
Proof. unfold is_genuine, is_error. intros H. apply andb_true_iff in H. tauto. Qed.



End WalletFacts.

(** Every console message of level error is counted exactly once, as a
    genuine error or as a suppressed one: the genuine errors and the
    suppressed messages of level error together are as many as the
    messages of level error.  (Messages of other levels are never genuine
    errors, but are counted as suppressed when their text says so.) *)
Theorem error_messages_counted_once (msgs : list DW.console_message) :
  length (DW.genuine_errors msgs)
    + length (List.filter DW.is_error (DW.suppressed_errors msgs))
  = length (List.filter DW.is_error msgs) /\
  List.filter DW.is_error (DW.genuine_errors msgs) = DW.genuine_errors msgs.
Proof.
  unfold DW.genuine_errors, DW.suppressed_errors.
  induction msgs as [|msg msgs [IHlen IHerr]]; [split; reflexivity|].
  cbn [List.filter].
  assert (Hg : DW.is_genuine msg = DW.is_error msg && negb (DW.is_suppressed msg))
    by reflexivity.
  rewrite Hg. clear Hg.
  destruct (DW.is_error msg) eqn:He; destruct (DW.is_suppressed msg) eqn:Hs;
    cbn [andb negb List.filter length]; rewrite ?He; cbn [length];
    (split; [lia | try exact IHerr]).
  f_equal. exact IHerr.
Qed.

(** The three lists the listeners fill hold, in the order of arrival,
    every console message, every page error and exactly the responses
    whose success flag is false: a successful response is never recorded
    as a network failure. *)
Theorem wallet_listeners_collect (es : list DW.event) (c : DW.collected) :
  DW.console_messages (DW.on_events es c)
    = DW.console_messages c ++ flat_map DW.message_of es /\
  DW.js_errors (DW.on_events es c) = DW.js_errors c ++ flat_map DW.js_error_of es /\
  DW.network_failures (DW.on_events es c)
    = DW.network_failures c ++ flat_map DW.failure_of es.
Proof.
  revert c. induction es as [|e es IH]; intros c.
  - simpl. rewrite !app_nil_r. auto.
  - change (DW.on_events (e :: es) c) with (DW.on_events es (DW.on_event e c)).
    destruct (IH (DW.on_event e c)) as (Hc & Hj & Hn).
    destruct (WalletFacts.on_event_collects e c) as (Hc' & Hj' & Hn').
    rewrite Hc, Hj, Hn, Hc', Hj', Hn'. cbn [flat_map].
    rewrite <- !app_assoc. auto.
Qed.

(** Every genuine error of the final list also belongs to the messages
    the console summary prints. *)
Theorem genuine_errors_shown_in_summary (msgs : list DW.console_message) :
  List.filter DW.shown_in_summary (DW.genuine_errors msgs) = DW.genuine_errors msgs.
Proof.
  unfold DW.genuine_errors. induction msgs as [|msg msgs IH]; [reflexivity|].
  cbn [List.filter]. destruct (DW.is_genuine msg) eqn:Hg; [| exact IH].
  cbn [List.filter].
  assert (Hshown : DW.shown_in_summary msg = true).
  { apply WalletFacts.genuine_is_error in Hg. unfold DW.is_error in Hg.
    apply String.eqb_eq in Hg. unfold DW.shown_in_summary. rewrite Hg. reflexivity. }
  rewrite Hshown. f_equal. exact IH.
Qed.



(** ** The final test ([final_personapass_test.py]) *)

Module SplitFacts.
Import PyStr PyStrFacts.

Lemma contains_append_false sub a b :
  contains sub (a +:+ b) = false -> contains sub a = false /\ contains sub b = false.
Proof.
  intros H. split.
  - destruct (contains sub a) eqn:Ha; [| reflexivity].
    apply contains_spec in Ha. destruct Ha as (x & y & ->).
    assert (Hc : contains sub ((x +:+ sub +:+ y) +:+ b) = true).
    { apply contains_spec. exists x, (y +:+ b). rewrite !append_assoc. reflexivity. }
    congruence.
  - destruct (contains sub b) eqn:Hb; [| reflexivity].
    apply contains_spec in Hb. destruct Hb as (x & y & ->).
    assert (Hc : contains sub (a +:+ x +:+ sub +:+ y) = true).
    { apply contains_spec. exists (a +:+ x), y. rewrite !append_assoc. reflexivity. }
    congruence.
Qed.

(** Without an occurrence of the separator there is one piece. *)
Lemma split_from_no_sep sep s piece :
  contains sep s = false -> split_from sep s 0 piece = (piece +:+ s) :: nil.
Proof.
  revert piece. induction s as [|c s IH]; intros piece H.
  - simpl. rewrite append_nil_r. reflexivity.
  - apply contains_false_tail in H. destruct H as [Hstart Htail].
    cbn [split_from]. rewrite Hstart, (IH _ Htail), append_assoc. reflexivity.
Qed.

Lemma split_no_sep sep s : contains sep s = false -> split sep s = s :: nil.
Proof. intros H. unfold split. rewrite (split_from_no_sep _ _ _ H). reflexivity. Qed.

(** A text that occurs in no part of the input occurs in no piece. *)
Lemma split_from_pieces m sep s :
  (forall piece, contains m (piece +:+ s) = false ->
                 Forall (fun x => contains m x = false) (split_from sep s 0 piece)) /\
  (forall skip, contains m s = false ->
                Forall (fun x => contains m x = false) (split_from sep s skip EmptyString)).
Proof.
  induction s as [|c s [IHa IHb]].
  - split.
    + intros piece H. rewrite append_nil_r in H. repeat constructor. exact H.
    + intros skip H. destruct skip; repeat constructor; exact H.
  - assert (Ha : forall piece, contains m (piece +:+ String c s) = false ->
                 Forall (fun x => contains m x = false) (split_from sep (String c s) 0 piece)).
    { intros piece H. cbn [split_from].
      destruct (startswith sep (String c s)).
      - destruct (contains_append_false _ _ _ H) as [Hp Hs].
        constructor; [exact Hp |]. apply IHb.
        apply contains_false_tail in Hs. tauto.
      - apply IHa. rewrite append_assoc. exact H. }
    split; [exact Ha |].
    intros [|n] H.
    + apply Ha. exact H.
    + cbn [split_from]. apply IHb. apply contains_false_tail in H. tauto.
Qed.

Lemma lstrip_suffix s : exists p, s = p +:+ lstrip s.
Proof.
  induction s as [|c s [p Hp]]; [exists EmptyString; reflexivity|].
  simpl. destruct (isspace c).
  - exists (String c p). rewrite append_cons, <- Hp. reflexivity.
  - exists EmptyString. reflexivity.
Qed.

Lemma rstrip_prefix s : exists q, s = rstrip s +:+ q.
Proof.
  induction s as [|c s [q Hq]]; [exists EmptyString; reflexivity|].
  simpl. destruct (rstrip s) as [|x t] eqn:Hr.
  - destruct (isspace c).
    + exists (String c s). reflexivity.
    + exists s. reflexivity.
  - exists q. rewrite append_cons, <- Hq. reflexivity.
Qed.

Lemma contains_strip_false m s : contains m s = false -> contains m (strip s) = false.
Proof.
  intros H. unfold strip.
  destruct (lstrip_suffix s) as [p Hp]. destruct (rstrip_prefix (lstrip s)) as [q Hq].
  rewrite Hp in H. apply contains_append_false in H. destruct H as [_ H].
  rewrite Hq in H. apply contains_append_false in H. tauto.
Qed.

End SplitFacts.

(** The script analysis raises on every script: compiling its sixth
    error-handling pattern is a [re.error] (bad escape \i at position
    11), so [analyze_javascript_for_real_errors] never returns, and its
    caller, which catches the exception, always returns an error
    dictionary instead of an analysis. *)
Theorem script_analysis_raises_on_every_script (js_content base_url : string)
    (run : Subprocess.world) :
  FinalTest.analyze_javascript_for_real_errors js_content = Re.BadEscape "i" 11 /\
  FinalTest.has_actual_errors (FinalTest.analyze_main_application_script base_url run)
    = false /\
  exists message,
    FinalTest.analyze_main_application_script base_url run = FinalTest.Error message.
Proof.
  split; [apply FinalTestFacts.analyze_javascript_for_real_errors_raises |].
  destruct (FinalTestFacts.analyze_main_application_script_error base_url run)
    as [message ->].
  split; [reflexivity | exists message; reflexivity].
Qed.

Module PageTestFacts.

Lemma page_not_loaded (T : Type) (float : string -> option T) (zero : T)
    (below_5 : T -> bool) (base_url : string) (run : Subprocess.world) :
  PyStr.contains FinalTest.backslash_n
    (Subprocess.stdout_of (run 0 (FinalTest.page_argv base_url))) = false ->
  FinalTest.pt_page_loads (FinalTest.test_page_functionality float zero below_5 base_url run)
    = false /\
  (forall stdout stderr,
     run 0 (FinalTest.page_argv base_url) = Subprocess.Completed 0 stdout stderr ->
     FinalTest.test_page_functionality float zero below_5 base_url run
     = FinalTest.page_result below_5 "unknown" zero).
Proof.
  intros H.
  assert (Hc : forall stdout stderr,
    run 0 (FinalTest.page_argv base_url) = Subprocess.Completed 0 stdout stderr ->
    FinalTest.test_page_functionality float zero below_5 base_url run
    = FinalTest.page_result below_5 "unknown" zero).
  { intros stdout stderr Hrun. unfold FinalTest.test_page_functionality.
    rewrite Hrun in *. simpl in H. cbn [Z.eqb].
    rewrite (SplitFacts.split_no_sep _ _ (SplitFacts.contains_strip_false _ _ H)).
    reflexivity. }
  split; [| exact Hc].
  destruct (run 0 (FinalTest.page_argv base_url)) as [rc stdout stderr | | e] eqn:Hrun.
  - destruct (Z.eq_dec rc 0%Z) as [-> | Hne].
    + rewrite (Hc stdout stderr eq_refl). reflexivity.
    + unfold FinalTest.test_page_functionality. rewrite Hrun.
      apply Z.eqb_neq in Hne. rewrite Hne. reflexivity.
  - unfold FinalTest.test_page_functionality. rewrite Hrun. reflexivity.
  - unfold FinalTest.test_page_functionality. rewrite Hrun. reflexivity.
Qed.

End PageTestFacts.

(** The page test splits the output of curl at the two characters
    backslash and n, not at line feeds: when the output holds no such
    pair, the page is reported as not loaded, whatever the status code
    that curl printed; a completed curl then gives the status code
    [unknown] and the response time 0. *)
Theorem page_test_needs_backslash_n (T : Type) (float : string -> option T) (zero : T)
    (below_5 : T -> bool) (base_url : string) (run : Subprocess.world) :
  PyStr.contains FinalTest.backslash_n
    (Subprocess.stdout_of (run 0 (FinalTest.page_argv base_url))) = false ->
  FinalTest.pt_page_loads (FinalTest.test_page_functionality float zero below_5 base_url run)
    = false /\
  (forall stdout stderr,
     run 0 (FinalTest.page_argv base_url) = Subprocess.Completed 0 stdout stderr ->
     FinalTest.test_page_functionality float zero below_5 base_url run
     = FinalTest.page_result below_5 "unknown" zero).
Proof. apply PageTestFacts.page_not_loaded. Qed.

(** curl prints the page, the status code 200, a line feed and the time:
    the page is reported as not loaded. *)
Lemma page_test_needs_backslash_n_witness :
  FinalTest.pt_page_loads
    (FinalTest.test_page_functionality (fun _ => Some 1) 0 (fun t => t <? 5)
       Scenario.base_url Scenario.page_loaded) = false /\
  (forall stdout stderr,
     Scenario.page_loaded 0 (FinalTest.page_argv Scenario.base_url)
       = Subprocess.Completed 0 stdout stderr ->
     FinalTest.test_page_functionality (fun _ => Some 1) 0 (fun t => t <? 5)
       Scenario.base_url Scenario.page_loaded
     = FinalTest.page_result (fun t => t <? 5) "unknown" 0).
Proof.
  apply (page_test_needs_backslash_n nat (fun _ => Some 1) 0 (fun t => t <? 5)
           Scenario.base_url Scenario.page_loaded).
  vm_compute. reflexivity.
Defined.

(** Whatever the page and its script are, the final test never finds
    error suppression to be working: its fourth test fails, error
    suppression is not confirmed, the note on the important finding is
    not printed, at most three of the four tests pass and the overall
    status is never the best one. *)
Theorem final_test_never_confirms_suppression (T : Type) (float : string -> option T)
    (zero : T) (below_5 : T -> bool) (base_url : string)
    (run_page run_script : Subprocess.world)
    (react_structure : FinalTest.react_structure_result)
    (credential_functionality : FinalTest.credential_functionality_result) :
  let r := FinalTest.final_test float zero below_5 base_url run_page run_script
             react_structure credential_functionality in
  FinalTest.error_suppression_working_effectively r = false /\
  FinalTest.error_suppression_confirmed r = false /\
  FinalTest.important_finding_printed r = false /\
  FinalTest.passed_tests r <= 3 /\
  FinalTest.is_excellent (FinalTest.overall_status r) = false.
Proof.
  cbv zeta. unfold FinalTest.final_test.
  destruct (FinalTestFacts.analyze_main_application_script_error base_url run_script)
    as [message ->].
  unfold FinalTest.run_comprehensive_final_test.
  cbn [FinalTest.error_suppression_working FinalTest.has_actual_errors
       FinalTest.error_suppression_working_effectively FinalTest.error_suppression_confirmed
       FinalTest.important_finding_printed FinalTest.passed_tests FinalTest.overall_status].
  destruct (FinalTest.pt_page_loads _);
    destruct (default false (FinalTest.is_proper_react_app react_structure));
    destruct (default false (FinalTest.likely_functional credential_functionality));
    vm_compute; repeat split; lia.
Qed.

(** When the output of curl for the page holds no backslash followed by
    n, at most one of the four tests of the final test passes and the
    overall status is the worst one. *)
Theorem final_test_poor_without_backslash_n (T : Type) (float : string -> option T)
    (zero : T) (below_5 : T -> bool) (base_url : string)
    (run_page run_script : Subprocess.world)
    (react_structure : FinalTest.react_structure_result)
    (credential_functionality : FinalTest.credential_functionality_result) :
  PyStr.contains FinalTest.backslash_n
    (Subprocess.stdout_of (run_page 0 (FinalTest.page_argv base_url))) = false ->
  let r := FinalTest.final_test float zero below_5 base_url run_page run_script
             react_structure credential_functionality in
  FinalTest.passed_tests r <= 1 /\ FinalTest.overall_status r = FinalTest.POOR.
Proof.
  intros H. cbv zeta. unfold FinalTest.final_test.
  destruct (FinalTestFacts.analyze_main_application_script_error base_url run_script)
    as [message ->].
  destruct (PageTestFacts.page_not_loaded T float zero below_5 base_url run_page H) as [Hp _].
  unfold FinalTest.run_comprehensive_final_test. rewrite Hp.
  cbn [FinalTest.error_suppression_working FinalTest.has_actual_errors
       FinalTest.passed_tests FinalTest.overall_status].
  destruct (default false (FinalTest.is_proper_react_app react_structure));
    destruct (default false (FinalTest.likely_functional credential_functionality));
    vm_compute; split; (lia || reflexivity).
Qed.

Lemma final_test_poor_without_backslash_n_witness :
  let r := FinalTest.final_test (fun _ => Some 1) 0 (fun t => t <? 5) Scenario.base_url
             Scenario.page_loaded Scenario.page_loaded
             {| FinalTest.is_proper_react_app := Some true |}
             {| FinalTest.likely_functional := Some true |} in
  FinalTest.passed_tests r <= 1 /\ FinalTest.overall_status r = FinalTest.POOR.
Proof.
  apply (final_test_poor_without_backslash_n nat (fun _ => Some 1) 0 (fun t => t <? 5)
           Scenario.base_url Scenario.page_loaded Scenario.page_loaded
           {| FinalTest.is_proper_react_app := Some true |}
           {| FinalTest.likely_functional := Some true |}).
  vm_compute. reflexivity.
Defined.


(** ** The advanced tester ([apps/wallet/advanced_personapass_test.py]) *)

Module SimulationFacts.
Import PyStr Advanced.

Lemma find_error_patterns_grows patterns content errs :
  exists more, fst (find_error_patterns patterns content errs) = errs ++ more.
Proof.
  revert errs. induction patterns as [|p patterns IH]; intros errs; simpl.
  - exists nil. rewrite app_nil_r. reflexivity.
  - destruct (Re.findall p content Re.no_flags) as [matches | c n | n].
    + destruct (IH (errs ++ matches)) as [more ->]. exists (matches ++ more).
      rewrite app_assoc. reflexivity.
    + exists nil. rewrite app_nil_r. reflexivity.
    + exists nil. rewrite app_nil_r. reflexivity.
Qed.

(** The loop only adds to the collected errors, and counts a script as
    analysed at most once. *)
Lemma analyze_scripts_grows base_url run scripts call errs n :
  (exists more, fst (analyze_scripts base_url run scripts call errs n) = errs ++ more) /\
  n <= snd (analyze_scripts base_url run scripts call errs n) <= n + js_scripts_count scripts.
Proof.
  revert call errs n. unfold js_scripts_count.
  induction scripts as [|script rest IH]; intros call errs n.
  - simpl. split; [exists nil; rewrite app_nil_r; reflexivity | lia].
  - cbn [analyze_scripts List.filter]. destruct (endswith ".js" script); [| apply IH].
    cbn [length].
    destruct (run call _) as [rc content err | | e].
    + destruct (rc =? 0)%Z.
      * destruct (find_error_patterns error_patterns content errs) as [errs' [e|]] eqn:Hf;
          pose proof (find_error_patterns_grows error_patterns content errs) as [more Hm];
          rewrite Hf in Hm; simpl in Hm; subst errs'.
        -- destruct (IH (S call) ((errs ++ more) ++ ("Script error: " +:+ script +:+ " - " +:+ e) :: nil) n)
             as [[more' ->] Hn].
           split; [eexists; rewrite <- !app_assoc; reflexivity | lia].
        -- destruct (IH (S call) (errs ++ more) (S n)) as [[more' ->] Hn].
           split; [eexists; rewrite <- !app_assoc; reflexivity | lia].
      * destruct (IH (S call) errs n) as [Hm Hn]. split; [exact Hm | lia].
    + destruct (IH (S call) (errs ++ ("Script timeout: " +:+ script) :: nil) n) as [[more' ->] Hn].
      split; [eexists; rewrite <- !app_assoc; reflexivity | lia].
    + destruct (IH (S call) (errs ++ ("Script error: " +:+ script +:+ " - " +:+ e) :: nil) n)
        as [[more' ->] Hn].
      split; [eexists; rewrite <- !app_assoc; reflexivity | lia].
Qed.

(** The curl simulation returns an error dictionary, or the report of
    what its loop collected. *)
Lemma run_alternative_simulation_cases base_url run :
  (exists e, run_alternative_simulation base_url run = error_result e "curl_analysis") \/
  (exists page_loads_ html scripts call,
     run_alternative_simulation base_url run
     = curl_report page_loads_ html scripts
         (fst (analyze_scripts base_url run scripts call nil 0))
         (snd (analyze_scripts base_url run scripts call nil 0))).
Proof.
  unfold run_alternative_simulation.
  destruct (run 0 _) as [rc out err | | e]; [| left; eexists; reflexivity ..].
  destruct (run 1 _) as [rc1 html err1 | | e]; [| left; eexists; reflexivity ..].
  destruct (rc1 =? 0)%Z; [| left; eexists; reflexivity].
  destruct (Re.findall script_pattern html Re.no_flags) as [scripts | c n | n];
    [| left; eexists; reflexivity ..].
  right. exists ((rc =? 0)%Z && contains "200" (drop (String.length out - 3) out)), html, scripts, 2.
  destruct (analyze_scripts base_url run scripts 2 nil 0) as [errs analyzed]. reflexivity.
Qed.

Lemma js_analyze_scripts_keeps fetchScript scripts call errs :
  exists more, js_analyze_scripts fetchScript scripts call errs = errs ++ more.
Proof.
  revert call errs. induction scripts as [|script rest IH]; intros call errs; simpl.
  - exists nil. rewrite app_nil_r. reflexivity.
  - destruct (endswith ".js" script); [| apply IH].
    destruct (fetchScript call script) as [content | message];
      match goal with |- context [js_analyze_scripts _ _ _ (errs ++ ?x)] =>
        destruct (IH (S call) (errs ++ x)) as [more ->]; exists (x ++ more);
        rewrite app_assoc; reflexivity end.
Qed.

Lemma js_analyze_scripts_app fetchScript pre rest call errs :
  js_analyze_scripts fetchScript (pre ++ rest) call errs
  = js_analyze_scripts fetchScript rest (call + js_scripts_count pre)
      (js_analyze_scripts fetchScript pre call errs).
Proof.
  revert call errs. unfold js_scripts_count.
  induction pre as [|script pre IH]; intros call errs.
  - simpl. rewrite Nat.add_0_r. reflexivity.
  - cbn [app js_analyze_scripts List.filter]. destruct (endswith ".js" script); [| apply IH].
    cbn [length]. replace (call + S (length (List.filter (endswith ".js") pre)))
      with (S call + length (List.filter (endswith ".js") pre)) by lia.
    destruct (fetchScript call script); apply IH.
Qed.

Lemma analyze_scripts_app base_url run pre rest call errs n :
  analyze_scripts base_url run (pre ++ rest) call errs n
  = analyze_scripts base_url run rest (call + js_scripts_count pre)
      (fst (analyze_scripts base_url run pre call errs n))
      (snd (analyze_scripts base_url run pre call errs n)).
Proof.
  revert call errs n. unfold js_scripts_count.
  induction pre as [|script pre IH]; intros call errs n.
  - simpl. rewrite Nat.add_0_r. reflexivity.
  - cbn [app analyze_scripts List.filter]. destruct (endswith ".js" script); [| apply IH].
    cbn [length]. replace (call + S (length (List.filter (endswith ".js") pre)))
      with (S call + length (List.filter (endswith ".js") pre)) by lia.
    destruct (run call _) as [rc content err | | e].
    + destruct (rc =? 0)%Z; [| apply IH].
      destruct (find_error_patterns error_patterns content errs) as [errs' [e|]]; apply IH.
    + apply IH.
    + apply IH.
Qed.

(** The loop that also writes the log collects the same errors. *)
Lemma js_analyze_scripts_log_errors fetchScript scripts call errs log :
  fst (js_analyze_scripts_log fetchScript scripts call errs log)
  = js_analyze_scripts fetchScript scripts call errs.
Proof.
  revert call errs log. induction scripts as [|script rest IH]; intros call errs log; simpl.
  - reflexivity.
  - destruct (endswith ".js" script); [| apply IH].
    destruct (fetchScript call script); apply IH.
Qed.

Lemma after_marker_none output_lines :
  Forall (fun line => contains report_marker line = false) output_lines ->
  after_marker output_lines = None.
Proof.
  induction 1 as [|line rest Hline _ IH]; simpl; [reflexivity|].
  rewrite Hline. exact IH.
Qed.

(** Without the marker in the output there is no report to read. *)
Lemma read_report_no_marker json_loads stdout :
  contains report_marker stdout = false -> read_report json_loads stdout = None.
Proof.
  intros H. unfold read_report, split.
  rewrite after_marker_none; [reflexivity|].
  apply (proj1 (SplitFacts.split_from_pieces report_marker (chr newline) (strip stdout))).
  simpl. apply SplitFacts.contains_strip_false. exact H.
Qed.




Lemma without_last_segment_shorter url :
  contains "/" url = true ->
  String.length (without_last_segment url) < String.length url.
Proof.
  induction url as [|c url IH]; intros H; [discriminate H|].
  cbn [without_last_segment].
  destruct (Ascii.eqb c "/" && negb (contains "/" url)) eqn:Hlast; [simpl; lia|].
  cbn [String.length]. apply -> Nat.succ_lt_mono. apply IH.
  cbn [contains] in H. apply orb_true_iff in H. destruct H as [H | H]; [| exact H].
  destruct (contains "/" url) eqn:Hc; [reflexivity|].
  rewrite andb_true_r in Hlast.
  cbn [startswith] in H. rewrite Ascii.eqb_sym, Hlast in H. discriminate H.
Qed.

End SimulationFacts.

Module SimF := SimulationFacts.

(** Whatever curl does, the dictionary of the curl simulation is
    consistent: it counts no more scripts as analysed than it found
    script files, and its error details are at most ten and at most as
    many as the errors it counted. *)
Theorem simulation_report_consistent (base_url : string) (run : Subprocess.world) :
  let r := Advanced.run_alternative_simulation base_url run in
  default 0 (Advanced.scripts_analyzed r) <= default 0 (Advanced.total_scripts r) /\
  length (default nil (Advanced.error_details r)) <= 10 /\
  length (default nil (Advanced.error_details r)) <= default 0 (Advanced.total_errors r).
Proof.
  cbv zeta.
  destruct (SimF.run_alternative_simulation_cases base_url run)
    as [[e ->] | (pl & html & scripts & call & ->)].
  - simpl. lia.
  - simpl. destruct (SimF.analyze_scripts_grows base_url run scripts call nil 0) as [_ Hn].
    unfold Advanced.js_scripts_count in Hn.
    rewrite length_firstn. split; [lia | split; lia].
Qed.

(** Both script loops fetch the scripts whose source ends in [.js] and
    no other: the other sources of the page change neither the calls
    that are made nor what is collected. *)
Theorem only_js_scripts_are_fetched (base_url : string) (run : Subprocess.world)
    (fetchScript : Advanced.js_world) (scripts : list string) (call : nat)
    (errs : list string) (analyzed : nat) :
  Advanced.analyze_scripts base_url run scripts call errs analyzed
  = Advanced.analyze_scripts base_url run (List.filter (PyStr.endswith ".js") scripts)
      call errs analyzed /\
  Advanced.js_analyze_scripts fetchScript scripts call errs
  = Advanced.js_analyze_scripts fetchScript (List.filter (PyStr.endswith ".js") scripts)
      call errs.
Proof.
  split.
  - revert call errs analyzed. induction scripts as [|script rest IH]; intros call errs n;
      [reflexivity|].
    cbn [Advanced.analyze_scripts List.filter].
    destruct (PyStr.endswith ".js" script) eqn:Hjs; [| apply IH].
    cbn [Advanced.analyze_scripts]. rewrite Hjs.
    destruct (run call _) as [rc content err | | e]; [| apply IH ..].
    destruct (rc =? 0)%Z; [| apply IH].
    destruct (Advanced.find_error_patterns _ _ _) as [errs' [e|]]; apply IH.
  - revert call errs. induction scripts as [|script rest IH]; intros call errs; [reflexivity|].
    cbn [Advanced.js_analyze_scripts List.filter].
    destruct (PyStr.endswith ".js" script) eqn:Hjs; [| apply IH].
    cbn [Advanced.js_analyze_scripts]. rewrite Hjs.
    destruct (fetchScript call script); apply IH.
Qed.

(** When the curl simulation cannot observe the page (it returns a
    dictionary without [page_loads]: curl failed, timed out or raised),
    the comprehensive test has no syntax error and no node error to show,
    so it reports error suppression as working, next to the worst
    overall assessment. *)
Theorem unobserved_page_counts_as_suppressed (base_url : string) (run : Subprocess.world)
    (button : Advanced.button_test_result) :
  Advanced.page_loads (Advanced.run_alternative_simulation base_url run) = None ->
  let r := Advanced.run_comprehensive_test
             (Advanced.run_alternative_simulation base_url run) button in
  Advanced.error_suppression_working r = true /\
  Advanced.syntax_errors_found r = nil /\
  Advanced.node_errors_found r = nil /\
  Advanced.page_loads_without_errors r = false /\
  Advanced.overall_assessment r = Advanced.POOR.
Proof.
  intros H. cbv zeta.
  destruct (SimF.run_alternative_simulation_cases base_url run)
    as [[e He] | (pl & html & scripts & call & He)]; rewrite He in *.
  - repeat split; reflexivity.
  - discriminate H.
Qed.

Lemma unobserved_page_counts_as_suppressed_witness :
  let r := Advanced.run_comprehensive_test
             (Advanced.run_alternative_simulation Scenario.base_url Scenario.all_time_out)
             {| Advanced.likely_functional := Some true |} in
  Advanced.error_suppression_working r = true /\
  Advanced.syntax_errors_found r = nil /\
  Advanced.node_errors_found r = nil /\
  Advanced.page_loads_without_errors r = false /\
  Advanced.overall_assessment r = Advanced.POOR.
Proof.
  apply (unobserved_page_counts_as_suppressed Scenario.base_url Scenario.all_time_out
           {| Advanced.likely_functional := Some true |}).
  reflexivity.
Defined.

(** When Node runs the script to the end but its output holds no report
    marker (as when the script could not fetch the page), the
    comprehensive test takes the page as loaded as soon as the output
    mentions that the page is being fetched: it reports that the page
    loads without errors and that error suppression works, with the best
    overall assessment if the button test passed and the second best
    otherwise. *)
Theorem node_output_without_report_counts_as_success (base_url temp_script : string)
    (run : Subprocess.world) (json_loads : string -> option Advanced.simulation_result)
    (button : Advanced.button_test_result) (which_out which_err stdout stderr : string) :
  run 0 ("which" :: "node" :: nil) = Subprocess.Completed 0 which_out which_err ->
  run 1 ("node" :: temp_script :: base_url :: nil) = Subprocess.Completed 0 stdout stderr ->
  PyStr.contains Advanced.report_marker stdout = false ->
  PyStr.contains "Fetching main page" stdout = true ->
  let r := Advanced.run_comprehensive_test
             (Advanced.run_browser_simulation base_url temp_script run
                (Advanced.read_report json_loads)) button in
  Advanced.page_loads_without_errors r = true /\
  Advanced.error_suppression_working r = true /\
  Advanced.overall_assessment r
    = if default false (Advanced.likely_functional button)
      then Advanced.EXCELLENT else Advanced.GOOD.
Proof.
  intros Hwhich Hnode Hmarker Hfetch. cbv zeta.
  unfold Advanced.run_browser_simulation. rewrite Hwhich, Hnode. cbn [Z.eqb negb].
  rewrite (SimF.read_report_no_marker json_loads stdout Hmarker).
  unfold Advanced.run_comprehensive_test. simpl. rewrite Hfetch. simpl.
  destruct (default false (Advanced.likely_functional button)); repeat split; reflexivity.
Qed.

(** The output of the Node script when its fetch of the page is
    rejected: two lines, the second of which says that the page is being
    fetched, and no report. *)
Lemma node_output_without_report_counts_as_success_witness :
  let r := Advanced.run_comprehensive_test
             (Advanced.run_browser_simulation Scenario.base_url "/tmp/simulation.js"
                (Scenario.node_prints Scenario.node_output_on_page_failure)
                (Advanced.read_report (fun _ => None)))
             {| Advanced.likely_functional := Some true |} in
  Advanced.page_loads_without_errors r = true /\
  Advanced.error_suppression_working r = true /\
  Advanced.overall_assessment r = Advanced.EXCELLENT.
Proof.
  apply (node_output_without_report_counts_as_success Scenario.base_url "/tmp/simulation.js"
           (Scenario.node_prints Scenario.node_output_on_page_failure) (fun _ => None)
           {| Advanced.likely_functional := Some true |}
           "/usr/bin/node" EmptyString Scenario.node_output_on_page_failure EmptyString).
  - reflexivity.
  - reflexivity.
  - vm_compute. reflexivity.
  - vm_compute. reflexivity.
Defined.

(** For the report of either simulation the overall assessment tells
    what was seen: the worst one is given exactly when the page did not
    load, the third one when the page loaded and a syntax or node error
    is among the reported details, and the two best ones only when no
    such error is among them (the best one only without any collected
    error and with a working button).  The Node report is only built
    for a page that loaded. *)
Theorem assessment_of_simulation_report (page_loads : bool) (now html : string)
    (scripts errs : list string) (analyzed : nat) (button : Advanced.button_test_result) :
  Advanced.assessment_explained page_loads errs button
    (Advanced.run_comprehensive_test
       (Advanced.curl_report page_loads html scripts errs analyzed) button) /\
  Advanced.assessment_explained true errs button
    (Advanced.run_comprehensive_test (Advanced.js_report now html scripts errs) button).
Proof.
  unfold Advanced.assessment_explained, Advanced.run_comprehensive_test.
  cbn [Advanced.overall_assessment Advanced.error_suppression_working
       Advanced.page_loads Advanced.total_errors Advanced.error_details
       Advanced.curl_report Advanced.js_report].
  cbv beta iota delta [default from_option id].
  split.
  - destruct page_loads; cbn [andb]; [| reflexivity].
    destruct errs as [|e errs].
    + cbn. destruct (Advanced.likely_functional button) as [[|]|]; cbn; auto.
    + cbn [length Nat.ltb Nat.leb negb andb].
      match goal with |- context [Advanced.is_empty ?a && Advanced.is_empty ?b] =>
        destruct (Advanced.is_empty a && Advanced.is_empty b) end; auto.
  - cbn [andb]. destruct errs as [|e errs].
    + cbn. destruct (Advanced.likely_functional button) as [[|]|]; cbn; auto.
    + cbn [length Nat.ltb Nat.leb negb andb].
      match goal with |- context [Advanced.is_empty ?a && Advanced.is_empty ?b] =>
        destruct (Advanced.is_empty a && Advanced.is_empty b) end; auto.
Qed.



(** The two simulations resolve a script source that starts with a slash
    against different bases: the curl simulation appends it to the page
    URL, the Node simulation to the page URL without its last segment.
    For a page URL that holds a slash and does not end in one, the two
    fetch different URLs. *)
Theorem simulations_resolve_scripts_differently (base_url script : string) :
  PyStr.startswith "/" script = true ->
  PyStr.contains "/" base_url = true ->
  PyStr.rstrip_slash base_url = base_url ->
  Advanced.fullUrl base_url script <> Advanced.script_url_of base_url script.
Proof.
  intros Hscript Hslash Hend H.
  unfold Advanced.fullUrl, Advanced.script_url_of in H. rewrite Hscript, Hend in H.
  apply (f_equal String.length) in H. rewrite !PyStrFacts.length_append in H.
  pose proof (SimF.without_last_segment_shorter base_url Hslash). lia.
Qed.

Lemma simulations_resolve_scripts_differently_witness :
  Advanced.fullUrl Scenario.base_url "/assets/app.js"
  <> Advanced.script_url_of Scenario.base_url "/assets/app.js".
Proof.
  apply (simulations_resolve_scripts_differently Scenario.base_url "/assets/app.js");
    reflexivity.
Defined.

(** The Node simulation records every failed fetch: for each script
    file of the page whose fetch is rejected, the collected errors hold
    its script load error. *)
Theorem node_records_every_failed_fetch (fetchScript : Advanced.js_world)
    (before after : list string) (script message : string) (call : nat)
    (errs : list string) :
  PyStr.endswith ".js" script = true ->
  fetchScript (call + Advanced.js_scripts_count before) script = Advanced.Rejected message ->
  In ("Script load error: " +:+ script)
     (Advanced.js_analyze_scripts fetchScript (before ++ script :: after) call errs).
Proof.
  intros Hjs Hf. rewrite SimF.js_analyze_scripts_app.
  rewrite (AdvancedFacts.js_analyze_scripts_rejected _ _ _ _ _ _ Hjs Hf).
  destruct (SimF.js_analyze_scripts_keeps fetchScript after
              (S (call + Advanced.js_scripts_count before))
              (Advanced.js_analyze_scripts fetchScript before call errs
               ++ ("Script load error: " +:+ script) :: nil)) as [more ->].
  apply in_or_app. left. apply in_or_app. right. left. reflexivity.
Qed.

Lemma node_records_every_failed_fetch_witness :
  In ("Script load error: " +:+ "/assets/app.js")
     (Advanced.js_analyze_scripts Scenario.rejecting
        (("/favicon.ico" :: nil) ++ "/assets/app.js" :: "/assets/vendor.js" :: nil) 0 nil).
Proof.
  apply (node_records_every_failed_fetch Scenario.rejecting ("/favicon.ico" :: nil)
           ("/assets/vendor.js" :: nil) "/assets/app.js" "HTTP 404 for /assets/app.js" 0 nil);
    reflexivity.
Defined.

(** The curl simulation records every fetch that times out: for each
    script file of the page whose curl does not come back in time, the
    collected errors hold its script timeout. *)
Theorem curl_records_every_timeout (base_url : string) (run : Subprocess.world)
    (before after : list string) (script : string) (call : nat)
    (errs : list string) (analyzed : nat) :
  PyStr.endswith ".js" script = true ->
  run (call + Advanced.js_scripts_count before)
      ("curl" :: "-s" :: Advanced.script_url_of base_url script :: nil)
    = Subprocess.TimeoutExpired ->
  In ("Script timeout: " +:+ script)
     (fst (Advanced.analyze_scripts base_url run (before ++ script :: after) call errs analyzed)).
Proof.
  intros Hjs Hrun. rewrite SimF.analyze_scripts_app.
  rewrite (AdvancedFacts.analyze_scripts_timeout _ _ _ _ _ _ _ Hjs Hrun).
  match goal with |- In _ (fst (Advanced.analyze_scripts ?b ?r ?s ?c ?e ?n)) =>
    destruct (SimF.analyze_scripts_grows b r s c e n) as [[more ->] _] end.
  apply in_or_app. left. apply in_or_app. right. left. reflexivity.
Qed.

Lemma curl_records_every_timeout_witness :
  In ("Script timeout: " +:+ "/assets/app.js")
     (fst (Advanced.analyze_scripts Scenario.base_url Scenario.all_time_out
             (("/favicon.ico" :: nil) ++ "/assets/app.js" :: "/assets/vendor.js" :: nil)
             2 nil 0)).
Proof.
  apply (curl_records_every_timeout Scenario.base_url Scenario.all_time_out
           ("/favicon.ico" :: nil) ("/assets/vendor.js" :: nil) "/assets/app.js" 2 nil 0);
    reflexivity.
Defined.

(** ** What the Node simulation collects *)

Module LiteralFacts.
Import PyStr PyStrFacts Re.

Lemma drop_append p t : drop (String.length p) (p +:+ t) = t.
Proof. induction p as [|a p IH]; [destruct t; reflexivity | exact IH]. Qed.

Lemma take_append p t : take (String.length p) (p +:+ t) = p.
Proof.
  induction p as [|a p IH]; [destruct t; reflexivity|].
  rewrite append_cons. simpl. f_equal. exact IH.
Qed.

(** A plain text matches where the input starts with it, and nowhere else. *)
Lemma match_literal p bol gopen gcap s :
  match_items no_flags (literal p) bol gopen gcap s
  = if startswith p s then Some (drop (String.length p) s, gcap) else None.
Proof.
  revert bol s. induction p as [|a p IH]; intros bol s.
  - simpl. destruct s; reflexivity.
  - change (literal (String a p)) with (Atom (CChar a) One :: literal p).
    cbn [match_items]. destruct s as [|c s]; [reflexivity|].
    cbn [cset_matches same_char IGNORECASE no_flags startswith].
    destruct (Ascii.eqb a c); [| reflexivity].
    rewrite IH. reflexivity.
Qed.

(** Every match of a plain text is the text itself. *)
Lemma scan_literal p s skip bol :
  Forall (fun found => found = p) (scan no_flags (literal p) s skip bol).
Proof.
  revert skip bol. induction s as [|c s IH]; intros skip bol; [constructor|].
  cbn [scan]. destruct skip as [|n]; [| apply IH].
  rewrite match_literal.
  destruct (startswith p (String c s)) eqn:Hstart; [| apply IH].
  constructor; [| apply IH].
  apply startswith_spec in Hstart. destruct Hstart as [t Ht]. rewrite Ht.
  rewrite drop_append, length_append.
  replace (String.length p + String.length t - String.length t) with (String.length p) by lia.
  apply take_append.
Qed.

Lemma analyzeForErrors_patterns content :
  Forall (fun e => In e Advanced.errorPatterns) (Advanced.analyzeForErrors content).
Proof.
  unfold Advanced.analyzeForErrors.
  generalize Advanced.errorPatterns as patterns.
  induction patterns as [|p patterns IH]; [constructor|].
  cbn [flat_map]. apply Forall_app. split.
  - eapply Forall_impl; [apply scan_literal |]. simpl. intros x ->. left. reflexivity.
  - eapply Forall_impl; [exact IH |]. simpl. intros x Hx. right. exact Hx.
Qed.

Lemma js_analyze_scripts_entries fetchScript all scripts call errs :
  (forall s, In s scripts -> In s all) ->
  Forall (Advanced.node_entry all) errs ->
  Forall (Advanced.node_entry all) (Advanced.js_analyze_scripts fetchScript scripts call errs).
Proof.
  revert call errs. induction scripts as [|script rest IH]; intros call errs Hin Herrs;
    [exact Herrs|].
  assert (Hrest : forall s, In s rest -> In s all)
    by (intros s Hs; apply Hin; right; exact Hs).
  cbn [Advanced.js_analyze_scripts].
  destruct (endswith ".js" script) eqn:Hjs; [| apply IH; assumption].
  destruct (fetchScript call script) as [scriptContent | message].
  - apply IH; [exact Hrest |]. apply Forall_app. split; [exact Herrs |].
    eapply Forall_impl; [apply analyzeForErrors_patterns |].
    intros x Hx. left. exact Hx.
  - apply IH; [exact Hrest |]. apply Forall_app. split; [exact Herrs |].
    constructor; [| constructor].
    right. exists script. split; [apply Hin; left; reflexivity |]. split; [exact Hjs | reflexivity].
Qed.

End LiteralFacts.

(** Every error the Node simulation collects is one of the ten pattern
    texts of [analyzeForErrors], found somewhere in a script, or the
    script load error of a script source of the page that ends in [.js]:
    the list holds nothing of the text around an occurrence. *)
Theorem node_errors_are_pattern_texts (fetchScript : Advanced.js_world)
    (scripts : list string) :
  Forall (fun e => In e Advanced.errorPatterns \/
                   exists script, In script scripts /\
                                  PyStr.endswith ".js" script = true /\
                                  e = "Script load error: " +:+ script)
         (Advanced.js_analyze_scripts fetchScript scripts 0 nil).
Proof.
  apply (LiteralFacts.js_analyze_scripts_entries fetchScript scripts scripts 0 nil).
  - intros s Hs. exact Hs.
  - constructor.
Qed.
